(** * SnipLink: the URL shortener of [main.go]

    A shallow embedding of the two HTTP handlers ([shortenHandler],
    [redirectHandler]), of the short-code generator and of the pieces of the
    Go standard library they call, followed by the properties of the
    service.

    Go strings are byte strings: they are [string] here, one [ascii] per
    byte.  Go [int]s are [Z]; every integer the program handles is far below
    the 64-bit bound.  The global [urlMap] is a [gmap string string], the
    global [math/rand] source is a stream of draws, and a handler is a
    function from the globals and the request to the new globals and what
    it wrote to its [http.ResponseWriter]. *)

From Stdlib Require Import ZArith Ascii String List Lia.
From stdpp Require Import gmap strings list fin_maps.

Local Open Scope Z_scope.

(** ** Bytes and strings *)

Definition byte_val (c : ascii) : Z := Z.of_nat (nat_of_ascii c).

Definition byte_of (n : Z) : ascii := ascii_of_nat (Z.to_nat n).

Definition in_range (lo hi : string) (c : ascii) : bool :=
  match lo, hi with
  | String l _, String h _ => (byte_val l <=? byte_val c) && (byte_val c <=? byte_val h)
  | _, _ => false
  end.

Definition is_lower (c : ascii) : bool := in_range "a" "z" c.
Definition is_upper (c : ascii) : bool := in_range "A" "Z" c.
Definition is_digit (c : ascii) : bool := in_range "0" "9" c.
Definition is_letter (c : ascii) : bool := is_lower c || is_upper c.
Definition is_alnum (c : ascii) : bool := is_letter c || is_digit c.

(** [len(s)] *)
Definition len (s : string) : Z := Z.of_nat (String.length s).

(** [s[i]], for an index the caller keeps in range; out of range Go panics,
    and [index_in_range] below shows when that cannot happen. *)
Definition byte_at (s : string) (i : Z) : ascii :=
  match String.get (Z.to_nat i) s with
  | Some c => c
  | None => byte_of 0
  end.

(** All bytes of a string satisfy [p]. *)
Fixpoint all_bytes (p : ascii -> bool) (s : string) : bool :=
  match s with
  | EmptyString => true
  | String c s' => p c && all_bytes p s'
  end.

(** ** [math/rand]

    The global source is a stream of raw draws and the number of draws
    already taken.  [rand.Intn(n)], for [n > 0], returns a value of
    [[0, n)] and advances the source. *)

Record Rand := mkRand { draws : nat -> Z; taken : nat }.

Definition rand_Intn (g : Rand) (n : Z) : Z * Rand :=
  (draws g (taken g) mod n, mkRand (draws g) (S (taken g))).

(** ** [generateShortCode] *)

Definition chars : string :=
  "abcdefghijklmnopqrstuvwxyzABCDEFGHIJKLMNOPQRSTUVWXYZ0123456789".

(** One turn of [for i := range shortCode]. *)
Definition fill_byte (acc : list ascii * Rand) (i : nat) : list ascii * Rand :=
  let '(shortCode, g) := acc in
  let '(k, g') := rand_Intn g (len chars) in
  (<[i := byte_at chars k]> shortCode, g').

Definition generateShortCode (g : Rand) : string * Rand :=
  let shortCode := replicate 6 (byte_of 0) in
  let '(shortCode', g') :=
    foldl fill_byte (shortCode, g) (seq 0 (length shortCode)) in
  (string_of_list_ascii shortCode', g').

(** The byte the loop of [generateShortCode] stores at index [i] when it
    starts with source [g]. *)
Definition drawn (g : Rand) (i : nat) : ascii :=
  byte_at chars (draws g (taken g + i) mod len chars).

(** ** Package [strings] *)

Definition LF : string := String (byte_of 10) EmptyString.
Definition DQUOTE : string := String (byte_of 34) EmptyString.

(** [s[:i]] and [s[i:]] *)
Definition slice_to (i : nat) (s : string) : string := substring 0 i s.
Definition slice_from (i : nat) (s : string) : string :=
  substring i (String.length s - i) s.

Definition strings_HasPrefix (s p : string) : bool := String.prefix p s.

Definition strings_HasSuffix (s p : string) : bool :=
  (String.length p <=? String.length s)%nat
  && String.eqb (slice_from (String.length s - String.length p) s) p.

Definition strings_Index (s sep : string) : option nat := String.index 0 sep s.

Definition strings_Contains (s sep : string) : bool :=
  match strings_Index s sep with Some _ => true | None => false end.

(** [strings.LastIndex(s, sep)] for a one-byte [sep] *)
Fixpoint last_index (s : string) (c : ascii) : option nat :=
  match s with
  | EmptyString => None
  | String a s' =>
      match last_index s' c with
      | Some i => Some (S i)
      | None => if Ascii.eqb a c then Some 0%nat else None
      end
  end.

Definition strings_LastIndex (s sep : string) : option nat :=
  match sep with
  | String c EmptyString => last_index s c
  | _ => None
  end.

(** [strings.Cut(s, sep)]: the text before and after the first [sep]. *)
Definition strings_Cut (s sep : string) : string * string * bool :=
  match strings_Index s sep with
  | Some i => (slice_to i s, slice_from (i + String.length sep) s, true)
  | None => (s, EmptyString, false)
  end.

(** [strings.Count(s, sep)] for a one-byte [sep] *)
Fixpoint count_byte (s : string) (c : ascii) : nat :=
  match s with
  | EmptyString => 0
  | String a s' => ((if Ascii.eqb a c then 1 else 0) + count_byte s' c)%nat
  end.

(** [strings.Split(s, "/")] *)
Fixpoint split_slash (s : string) : list string :=
  match s with
  | EmptyString => [EmptyString]
  | String c s' =>
      if Ascii.eqb c "/" then EmptyString :: split_slash s'
      else match split_slash s' with
           | seg :: rest => String c seg :: rest
           | [] => [String c EmptyString]
           end
  end.

(** [strings.Join(elems, "/")] *)
Fixpoint join_slash (elems : list string) : string :=
  match elems with
  | [] => EmptyString
  | [e] => e
  | e :: rest => e +:+ "/" +:+ join_slash rest
  end.

(** ** Package [path] *)

(** [path.Split]: the directory, up to and with the last slash, and the file. *)
Definition path_Split (p : string) : string * string :=
  match strings_LastIndex p "/" with
  | Some i => (slice_to (S i) p, slice_from (S i) p)
  | None => (EmptyString, p)
  end.

(** One element of the path met by [path.Clean]; [out] holds the elements
    kept so far, the last one first. *)
Definition clean_elem (rooted : bool) (out : list string) (elem : string) : list string :=
  if String.eqb elem EmptyString || String.eqb elem "." then out
  else if String.eqb elem ".." then
    match out with
    | top :: out' => if String.eqb top ".." then elem :: out else out'
    | [] => if rooted then [] else [elem]
    end
  else elem :: out.

(** [path.Clean], by its four rules: runs of slashes count once, [.]
    elements go, an inner [..] goes with the element before it, and [..] at
    the start of a rooted path goes.  The empty result is [.]. *)
Definition path_Clean (p : string) : string :=
  let rooted := strings_HasPrefix p "/" in
  let kept := join_slash (rev (foldl (clean_elem rooted) [] (split_slash p))) in
  if rooted then "/" +:+ kept
  else if String.eqb kept EmptyString then "." else kept.

(** ** Escaping in [net/http] *)

Definition hex_digit (n : Z) : ascii := byte_at "0123456789abcdef" n.

(** [hexEscapeNonASCII]: every byte from 0x80 up becomes [%xx]. *)
Fixpoint hexEscapeNonASCII (s : string) : string :=
  match s with
  | EmptyString => EmptyString
  | String c s' =>
      if 128 <=? byte_val c
      then String "%" (String (hex_digit (byte_val c / 16))
                         (String (hex_digit (byte_val c mod 16)) (hexEscapeNonASCII s')))
      else String c (hexEscapeNonASCII s')
  end.

(** [htmlEscape]: the five replacements of [htmlReplacer]. *)
Fixpoint htmlEscape (s : string) : string :=
  match s with
  | EmptyString => EmptyString
  | String c s' =>
      (if Ascii.eqb c "&" then "&amp;"
       else if Ascii.eqb c "<" then "&lt;"
       else if Ascii.eqb c ">" then "&gt;"
       else if Ascii.eqb c (byte_of 34) then "&#34;"
       else if Ascii.eqb c "'" then "&#39;"
       else String c EmptyString) +:+ htmlEscape s'
  end.

(** ** Requests and responses *)

#[local] Set Warnings "-register-all".

(** A JSON value, as [encoding/json] reads it off the wire. *)
Inductive JSON :=
| JNull
| JBool (b : bool)
| JNumber (literal : string)
| JString (s : string)
| JArray (elems : list JSON)
| JObject (members : list (string * JSON)).

(** What a [json.Decoder] finds on [r.Body]: no JSON value (the body is
    empty, cut short or ill-formed), or the first value it holds. *)
Inductive Payload :=
| NoJSON
| JSONValue (v : JSON).

(** The fields of [*http.Request] the handlers read. *)
Record Request := mkRequest {
  Method : string;
  URL_Path : string;
  Body : Payload
}.

(** One write to the response body: text, or the [json.Encoder] encoding
    of a [map[string]string] with its closing newline. *)
Inductive Chunk :=
| Text (s : string)
| Encoded (m : gmap string string).

(** What a handler leaves in its [http.ResponseWriter] (the fields of
    [httptest.ResponseRecorder]): status code, headers and body. *)
Record Response := mkResponse {
  Code : Z;
  Header : gmap string string;
  Wrote : list Chunk
}.

(** A handler either returns, leaving a response, or panics. *)
Inductive Outcome :=
| Reply (w : Response)
| Panic.

Definition MethodGet : string := "GET".
Definition MethodHead : string := "HEAD".
Definition MethodPost : string := "POST".

Definition StatusOK : Z := 200.
Definition StatusTemporaryRedirect : Z := 307.
Definition StatusBadRequest : Z := 400.
Definition StatusNotFound : Z := 404.
Definition StatusMethodNotAllowed : Z := 405.

(** [http.StatusText], on the codes above. *)
Definition StatusText (code : Z) : string :=
  if code =? 200 then "OK"
  else if code =? 307 then "Temporary Redirect"
  else if code =? 400 then "Bad Request"
  else if code =? 404 then "Not Found"
  else if code =? 405 then "Method Not Allowed"
  else EmptyString.

(** [httptest.NewRecorder()]: a response is 200 until a handler says
    otherwise. *)
Definition NewRecorder : Response := mkResponse StatusOK ∅ [].

Definition Header_Set (w : Response) (key value : string) : Response :=
  mkResponse (Code w) (<[key := value]> (Header w)) (Wrote w).

Definition WriteHeader (w : Response) (code : Z) : Response :=
  mkResponse code (Header w) (Wrote w).

Definition Write (w : Response) (c : Chunk) : Response :=
  mkResponse (Code w) (Header w) (Wrote w ++ [c]).

(** [http.Error] *)
Definition http_Error (w : Response) (error : string) (code : Z) : Response :=
  let w := Header_Set w "Content-Type" "text/plain; charset=utf-8" in
  let w := Header_Set w "X-Content-Type-Options" "nosniff" in
  let w := WriteHeader w code in
  Write w (Text (error +:+ LF)).

(** The [*url.URL] fields that [http.Redirect] reads. *)
Record URL := mkURL { Scheme : string; Host : string }.

Section Redirect.

(** [url.Parse] of [net/url]: [None] stands for its error.  The handlers
    are defined, and their properties proved, for whatever it answers;
    [url_Parse] further down follows the library. *)
Variable Parse : string -> option URL.

(** The target [http.Redirect] sends: a URL without scheme and host is a
    path, made absolute against the path of the request and cleaned. *)
Definition redirect_target (oldpath url : string) : string :=
  match Parse url with
  | Some u =>
      if String.eqb (Scheme u) EmptyString && String.eqb (Host u) EmptyString then
        let oldpath := if String.eqb oldpath EmptyString then "/" else oldpath in
        let url :=
          if String.eqb url EmptyString || negb (strings_HasPrefix url "/")
          then fst (path_Split oldpath) +:+ url
          else url in
        let '(url, query) :=
          match strings_Index url "?" with
          | Some i => (slice_to i url, slice_from i url)
          | None => (url, EmptyString)
          end in
        let trailing := strings_HasSuffix url "/" in
        let url := path_Clean url in
        let url :=
          if trailing && negb (strings_HasSuffix url "/") then url +:+ "/" else url in
        url +:+ query
      else url
  | None => url
  end.

Definition is_ascii (c : ascii) : bool := byte_val c <? 128.

(** The URLs [http.Redirect] sends as they are: ASCII, and either refused
    by [url.Parse] or parsed with a scheme or a host. *)
Definition sent_unchanged (url : string) : bool :=
  all_bytes is_ascii url
  && match Parse url with
     | Some u => negb (String.eqb (Scheme u) EmptyString && String.eqb (Host u) EmptyString)
     | None => true
     end.

(** [http.Redirect] *)
Definition http_Redirect (w : Response) (r : Request) (url : string) (code : Z) : Response :=
  let url := redirect_target (URL_Path r) url in
  let hadCT := bool_decide (is_Some (Header w !! "Content-Type")) in
  let w := Header_Set w "Location" (hexEscapeNonASCII url) in
  let w :=
    if negb hadCT && (String.eqb (Method r) MethodGet || String.eqb (Method r) MethodHead)
    then Header_Set w "Content-Type" "text/html; charset=utf-8"
    else w in
  let w := WriteHeader w code in
  if negb hadCT && String.eqb (Method r) MethodGet
  then Write w (Text ("<a href=" +:+ DQUOTE +:+ htmlEscape url +:+ DQUOTE +:+ ">"
                      +:+ StatusText code +:+ "</a>." +:+ LF +:+ LF))
  else w.

End Redirect.

(** ** [encoding/json]: decoding into [URLPair] *)

Record URLPair := mkURLPair {
  Original : string;   (* `json:"original"` *)
  ShortCode : string   (* `json:"short_code"` *)
}.

Inductive Field := F_Original | F_ShortCode.

Definition to_upper (c : ascii) : ascii :=
  if is_lower c then byte_of (byte_val c - 32) else c.

(** The folding under which [encoding/json] compares an object key with a
    field name when they are not equal byte for byte: ASCII letters without
    their case, and the two runes that fold to ASCII letters, U+017F (bytes
    C5 BF) to [S] and U+212A (bytes E2 84 AA) to [K].  Other runes outside
    ASCII fold among themselves and never to an ASCII name. *)
Fixpoint foldName (s : string) : string :=
  match s with
  | EmptyString => EmptyString
  | String c s1 =>
      let plain := String (to_upper c) (foldName s1) in
      match s1 with
      | String c1 s2 =>
          if (byte_val c =? 197) && (byte_val c1 =? 191) then String "S" (foldName s2)
          else match s2 with
               | String c2 s3 =>
                   if (byte_val c =? 226) && (byte_val c1 =? 132) && (byte_val c2 =? 170)
                   then String "K" (foldName s3)
                   else plain
               | EmptyString => plain
               end
      | EmptyString => plain
      end
  end.

(** The field an object key names: the exact name first, the folded one
    next. *)
Definition field_named (key : string) : option Field :=
  if String.eqb key "original" then Some F_Original
  else if String.eqb key "short_code" then Some F_ShortCode
  else if String.eqb (foldName key) (foldName "original") then Some F_Original
  else if String.eqb (foldName key) (foldName "short_code") then Some F_ShortCode
  else None.

Inductive DecodeError :=
| SyntaxError           (* no JSON value to read *)
| UnmarshalTypeError.   (* a JSON value of the wrong kind for its target *)

(** A JSON value stored into a [string] field: a string is stored, [null]
    leaves the field as it is, anything else is a type error. *)
Definition store_string (v : JSON) (old : string) : string * option DecodeError :=
  match v with
  | JString s => (s, None)
  | JNull => (old, None)
  | _ => (old, Some UnmarshalTypeError)
  end.

Definition first_error (e1 e2 : option DecodeError) : option DecodeError :=
  match e1 with Some e => Some e | None => e2 end.

(** One member of a JSON object: stored when its key names a field,
    skipped otherwise.  Decoding goes on after a type error, and the first
    one is reported at the end. *)
Definition store_member (acc : URLPair * option DecodeError) (member : string * JSON)
  : URLPair * option DecodeError :=
  let '(p, err) := acc in
  match field_named (fst member) with
  | Some F_Original =>
      let '(s, e) := store_string (snd member) (Original p) in
      (mkURLPair s (ShortCode p), first_error err e)
  | Some F_ShortCode =>
      let '(s, e) := store_string (snd member) (ShortCode p) in
      (mkURLPair (Original p) s, first_error err e)
  | None => acc
  end.

(** [json.NewDecoder(r.Body).Decode(&urlPair)]: the struct after the call
    and the error returned. *)
Definition json_Decode (body : Payload) (urlPair : URLPair) : URLPair * option DecodeError :=
  match body with
  | NoJSON => (urlPair, Some SyntaxError)
  | JSONValue JNull => (urlPair, None)
  | JSONValue (JObject members) => foldl store_member (urlPair, None) members
  | JSONValue _ => (urlPair, Some UnmarshalTypeError)
  end.

(** [var urlPair URLPair]: the zero value. *)
Definition zero_URLPair : URLPair := mkURLPair EmptyString EmptyString.

(** The members that leave [Original] alone and raise no error: a key that
    names no field, or [short_code] with a string or [null]. *)
Definition spares_original (member : string * JSON) : bool :=
  match field_named (fst member), snd member with
  | None, _ => true
  | Some F_ShortCode, (JString _ | JNull) => true
  | _, _ => false
  end.

(** The bodies that decode without error and leave [Original] empty:
    [null], and an object whose members all spare it. *)
Definition lacks_original (b : Payload) : bool :=
  match b with
  | JSONValue JNull => true
  | JSONValue (JObject members) => forallb spares_original members
  | _ => false
  end.

(** The JSON values with an [original] member: an object one of whose
    keys names the field, exactly or folded. *)
Definition names_original (v : JSON) : bool :=
  match v with
  | JObject members =>
      existsb (fun member => match field_named (fst member) with
                             | Some F_Original => true
                             | _ => false
                             end) members
  | _ => false
  end.

(** [json.NewEncoder(w).Encode(response)], the first write to [w] *)
Definition json_Encode (w : Response) (response : gmap string string) : Response :=
  Write w (Encoded response).

(** ** The handlers *)

(** The package-level variables: [urlMap], and the source behind
    [math/rand]'s top-level functions. *)
Record Globals := mkGlobals {
  urlMap : gmap string string;
  rand : Rand
}.

(** Every key of [urlMap] is six bytes long. *)
Definition six_byte_keys (st : Globals) : Prop :=
  forall k : string, is_Some (urlMap st !! k) -> String.length k = 6%nat.

Definition shortenHandler (st : Globals) (r : Request) : Globals * Outcome :=
  let w := NewRecorder in
  if negb (String.eqb (Method r) MethodPost) then
    (st, Reply (http_Error w "Method not allowed" StatusMethodNotAllowed))
  else
    match json_Decode (Body r) zero_URLPair with
    | (_, Some _) =>
        (st, Reply (http_Error w "Invalid request body" StatusBadRequest))
    | (urlPair, None) =>
        let '(shortCode, g) := generateShortCode (rand st) in
        let urlMap' := <[shortCode := Original urlPair]> (urlMap st) in
        let response : gmap string string :=
          <["short_url" := "http://localhost:8080/" +:+ shortCode]>
            (<["short_code" := shortCode]> ∅) in
        let w := Header_Set w "Content-Type" "application/json" in
        (mkGlobals urlMap' g, Reply (json_Encode w response))
    end.

Section Handlers.

Variable Parse : string -> option URL.

Definition redirectHandler (st : Globals) (r : Request) : Globals * Outcome :=
  match URL_Path r with
  | EmptyString => (st, Panic)        (* r.URL.Path[1:] on the empty path *)
  | String _ shortCode =>
      match urlMap st !! shortCode with
      | None =>
          (st, Reply (http_Error NewRecorder "Short code not found" StatusNotFound))
      | Some originalURL =>
          (st, Reply (http_Redirect Parse NewRecorder r originalURL StatusTemporaryRedirect))
      end
  end.

(** A request as [main] routes it: to the handler of [/shorten] or to the
    handler of [/]. *)
Inductive Call :=
| Shorten (r : Request)
| Redirect (r : Request).

Definition serve (st : Globals) (c : Call) : Globals * Outcome :=
  match c with
  | Shorten r => shortenHandler st r
  | Redirect r => redirectHandler st r
  end.

(** The globals after a sequence of calls. *)
Definition run (st : Globals) (calls : list Call) : Globals :=
  foldl (fun st c => fst (serve st c)) st calls.

End Handlers.

(** ** Package [net/url]: [Parse], as far as [Scheme] and [Host] *)

Definition is_hex (c : ascii) : bool :=
  is_digit c || in_range "a" "f" c || in_range "A" "F" c.

Definition unhex (c : ascii) : Z :=
  if is_digit c then byte_val c - 48
  else if in_range "a" "f" c then byte_val c - 97 + 10
  else if in_range "A" "F" c then byte_val c - 65 + 10
  else 0.

Definition to_lower (c : ascii) : ascii :=
  if is_upper c then byte_of (byte_val c + 32) else c.

Fixpoint strings_ToLower (s : string) : string :=
  match s with
  | EmptyString => EmptyString
  | String c s' => String (to_lower c) (strings_ToLower s')
  end.

(** One of the bytes of [set]. *)
Definition one_of (set : string) (c : ascii) : bool :=
  negb (Nat.eqb (count_byte set c) 0).

Definition stringContainsCTLByte (s : string) : bool :=
  negb (all_bytes (fun b => negb ((byte_val b <? 32) || (byte_val b =? 127))) s).

(** The parts of a URL that [unescape] treats differently. *)
Inductive encoding := encodePath | encodeHost | encodeZone | encodeUserPassword | encodeFragment.

(** [shouldEscape(c, encodeHost)] *)
Definition shouldEscape_host (c : ascii) : bool :=
  negb (is_alnum c
        || one_of ("!$&'()*+,;=:[]<>" +:+ DQUOTE) c
        || one_of "-_.~" c).

(** [unescape]: [None] for an [EscapeError] or [InvalidHostError]. *)
Fixpoint unescape (mode : encoding) (s : string) : option string :=
  match s with
  | EmptyString => Some EmptyString
  | String c s1 =>
      if Ascii.eqb c "%" then
        match s1 with
        | String h1 (String h2 s3) =>
            let v := unhex h1 * 16 + unhex h2 in
            let is25 := Ascii.eqb h1 "2" && Ascii.eqb h2 "5" in
            if negb (is_hex h1 && is_hex h2) then None
            else if match mode with encodeHost => (unhex h1 <? 8) && negb is25 | _ => false end
            then None
            else if match mode with
                    | encodeZone => negb is25 && negb (v =? 32) && shouldEscape_host (byte_of v)
                    | _ => false
                    end
            then None
            else String (byte_of v) <$> unescape mode s3
        | _ => None
        end
      else if match mode with
              | encodeHost | encodeZone => (byte_val c <? 128) && shouldEscape_host c
              | _ => false
              end
      then None
      else String c <$> unescape mode s1
  end.

Inductive SchemeScan := NoScheme | MissingScheme | SchemeEnds (i : nat).

(** The loop of [getScheme], at byte [i] of the URL. *)
Fixpoint scan_scheme (s : string) (i : nat) : SchemeScan :=
  match s with
  | EmptyString => NoScheme
  | String c s' =>
      if is_letter c then scan_scheme s' (S i)
      else if is_digit c || one_of "+-." c then
        if Nat.eqb i 0 then NoScheme else scan_scheme s' (S i)
      else if Ascii.eqb c ":" then
        if Nat.eqb i 0 then MissingScheme else SchemeEnds i
      else NoScheme
  end.

(** [getScheme]: the scheme and the rest, [None] for its error. *)
Definition getScheme (rawURL : string) : option (string * string) :=
  match scan_scheme rawURL 0 with
  | NoScheme => Some (EmptyString, rawURL)
  | MissingScheme => None
  | SchemeEnds i => Some (slice_to i rawURL, slice_from (S i) rawURL)
  end.

Definition validOptionalPort (port : string) : bool :=
  match port with
  | EmptyString => true
  | String c digits => Ascii.eqb c ":" && all_bytes is_digit digits
  end.

Definition validUserinfo (s : string) : bool :=
  all_bytes (fun c => is_alnum c || one_of "-._:~!$&'()*+,;=%@" c) s.

(** [parseHost]: the host, [None] for an error.  Outside brackets a host
    holds one colon at most, the one before its port; inside brackets the
    IP literal is taken by its framing, the address itself is not parsed. *)
Definition parseHost (host : string) : option string :=
  if strings_HasPrefix host "[" then
    match strings_LastIndex host "]" with
    | None => None
    | Some i =>
        if negb (validOptionalPort (slice_from (S i) host)) then None
        else match strings_Index (slice_to i host) "%25" with
             | Some zone =>
                 host1 ← unescape encodeHost (slice_to zone host);
                 host2 ← unescape encodeZone (substring zone (i - zone) host);
                 host3 ← unescape encodeHost (slice_from i host);
                 Some (host1 +:+ host2 +:+ host3)
             | None => unescape encodeHost host
             end
    end
  else
    match strings_Index host ":" with
    | Some i =>
        if negb (validOptionalPort (slice_from i host)) then None
        else unescape encodeHost host
    | None => unescape encodeHost host
    end.

(** [parseAuthority], for the host it finds: [None] for an error. *)
Definition parseAuthority (authority : string) : option string :=
  match strings_LastIndex authority "@" with
  | None => parseHost authority
  | Some i =>
      host ← parseHost (slice_from (S i) authority);
      let userinfo := slice_to i authority in
      if negb (validUserinfo userinfo) then None
      else if negb (strings_Contains userinfo ":") then
        _ ← unescape encodeUserPassword userinfo; Some host
      else
        let '(username, password, _) := strings_Cut userinfo ":" in
        _ ← unescape encodeUserPassword username;
        _ ← unescape encodeUserPassword password;
        Some host
  end.

(** [parse(rawURL, false)] *)
Definition url_parse (rawURL : string) : option URL :=
  if stringContainsCTLByte rawURL then None
  else if String.eqb rawURL "*" then Some (mkURL EmptyString EmptyString)
  else
    '(scheme, rest) ← getScheme rawURL;
    let scheme := strings_ToLower scheme in
    let rest :=
      if strings_HasSuffix rest "?" && Nat.eqb (count_byte rest "?") 1
      then slice_to (String.length rest - 1) rest
      else fst (fst (strings_Cut rest "?")) in
    if negb (strings_HasPrefix rest "/") && negb (String.eqb scheme EmptyString) then
      Some (mkURL scheme EmptyString)          (* an opaque URL *)
    else if negb (strings_HasPrefix rest "/")
            && strings_Contains (fst (fst (strings_Cut rest "/"))) ":" then
      None                                     (* colon in the first path segment *)
    else if (negb (String.eqb scheme EmptyString) || negb (strings_HasPrefix rest "///"))
            && strings_HasPrefix rest "//" then
      let authority := slice_from 2 rest in
      let '(authority, rest) :=
        match strings_Index authority "/" with
        | Some i => (slice_to i authority, slice_from i authority)
        | None => (authority, EmptyString)
        end in
      host ← parseAuthority authority;
      _ ← unescape encodePath rest;
      Some (mkURL scheme host)
    else
      _ ← unescape encodePath rest;
      Some (mkURL scheme EmptyString).

(** [url.Parse] *)
Definition url_Parse (rawURL : string) : option URL :=
  let '(u, frag, _) := strings_Cut rawURL "#" in
  url ← url_parse u;
  if String.eqb frag EmptyString then Some url
  else _ ← unescape encodeFragment frag; Some url.

(** ** What a client sees of an outcome *)

Definition status (o : Outcome) : option Z :=
  match o with Reply w => Some (Code w) | Panic => None end.

Definition header (o : Outcome) (key : string) : option string :=
  match o with Reply w => Header w !! key | Panic => None end.

Definition body (o : Outcome) : list Chunk :=
  match o with Reply w => Wrote w | Panic => [] end.

(** A member of the JSON object a reply carries. *)
Definition json_member (o : Outcome) (key : string) : option string :=
  match body o with
  | [Encoded m] => m !! key
  | _ => None
  end.

(** The request with another method. *)
Definition with_method (m : string) (r : Request) : Request :=
  mkRequest m (URL_Path r) (Body r).

(** ** A run to evaluate *)

(** A source whose draws are 3, 10, 17, 24, 31, 38, ...: the first code
    generated from it is [dkryFM]. *)
Definition example_source : Rand := mkRand (fun i => 7 * Z.of_nat i + 3) 0.

(** The process at its start: an empty map. *)
Definition start : Globals := mkGlobals ∅ example_source.

(** [POST /shorten] with the body [{"original": url}]. *)
Definition post_original (url : string) : Request :=
  mkRequest MethodPost "/shorten" (JSONValue (JObject [("original", JString url)])).

(** The globals after that request on the fresh process. *)
Definition shortened (url : string) : Globals :=
  fst (shortenHandler start (post_original url)).

(** What a request with method [m] and path [p] gets from the redirect
    operation, with [url.Parse] as the library has it. *)
Definition visit (m : string) (st : Globals) (p : string) : Outcome :=
  snd (redirectHandler url_Parse st (mkRequest m p NoJSON)).

(** ** [loggingMiddleware] and the handlers as [main] registers them *)

(** Package [time]: the clock is a stream of instants, in nanoseconds, and
    every reading takes the next one.  [time.Since(t)] is
    [time.Now().Sub(t)]. *)
Record Clock := mkClock { instants : nat -> Z; readings : nat }.

Definition time_Now (c : Clock) : Z * Clock :=
  (instants c (readings c), mkClock (instants c) (S (readings c))).

Definition time_Since (c : Clock) (t : Z) : Z * Clock :=
  let '(now, c') := time_Now c in (now - t, c').

(** The fields [zap.String(key, val)] and [zap.Duration(key, d)]. *)
Inductive zap_Field :=
| zap_String (key val : string)
| zap_Duration (key : string) (d : Z).

(** One call [logger.Info(msg, fields...)]. *)
Record LogCall := mkLogCall { msg : string; fields : list zap_Field }.

Definition started (r : Request) : LogCall :=
  mkLogCall "Request started"
    [zap_String "method" (Method r); zap_String "path" (URL_Path r)].

Definition finished (r : Request) (duration : Z) : LogCall :=
  mkLogCall "Request finished"
    [zap_String "method" (Method r); zap_String "path" (URL_Path r);
     zap_Duration "duration" duration].

(** The process: the globals of the handlers, the global [logger] ([None]
    while it is the nil pointer it is declared as, otherwise the calls of
    [Info] made on it so far), and the clock. *)
Record Server := mkServer {
  globals : Globals;
  logger : option (list LogCall);
  clock : Clock
}.

(** [loggingMiddleware(next)].  [Info] on the nil logger panics, and so does
    the wrapper when [next] does: nothing is deferred, so the second [Info]
    is then never reached. *)
Definition loggingMiddleware (next : Globals -> Request -> Globals * Outcome)
    (sv : Server) (r : Request) : Server * Outcome :=
  let '(start, clk) := time_Now (clock sv) in
  match logger sv with
  | None => (mkServer (globals sv) None clk, Panic)
  | Some calls =>
      let calls := calls ++ [started r] in
      match next (globals sv) r with
      | (st, Panic) => (mkServer st (Some calls) clk, Panic)
      | (st, Reply w) =>
          let '(duration, clk) := time_Since clk start in
          (mkServer st (Some (calls ++ [finished r duration])) clk, Reply w)
      end
  end.

(** The request of a call. *)
Definition request_of (c : Call) : Request :=
  match c with Shorten r => r | Redirect r => r end.

Definition is_started (e : LogCall) : bool := String.eqb (msg e) "Request started".

(** The key [redirectHandler] looks up for a path: [Path[1:]]. *)
Definition path_key (p : string) : option string :=
  match p with
  | EmptyString => None
  | String _ key => Some key
  end.

(** The original URL a call of the shorten operation submits, when the
    operation accepts it. *)
Definition submission (c : Call) : option string :=
  match c with
  | Shorten r =>
      if String.eqb (Method r) MethodPost then
        match json_Decode (Body r) zero_URLPair with
        | (urlPair, None) => Some (Original urlPair)
        | (_, Some _) => None
        end
      else None
  | Redirect _ => None
  end.

Section Registered.

Variable Parse : string -> option URL.

(** [main]: [/shorten] is [loggingMiddleware(shortenHandler)] and [/] is
    [loggingMiddleware(redirectHandler)]. *)
Definition serve_logged (sv : Server) (c : Call) : Server * Outcome :=
  match c with
  | Shorten r => loggingMiddleware shortenHandler sv r
  | Redirect r => loggingMiddleware (redirectHandler Parse) sv r
  end.

Definition run_logged (sv : Server) (calls : list Call) : Server :=
  foldl (fun sv c => fst (serve_logged sv c)) sv calls.

End Registered.

(** A clock that shows 0, 1000, 2000, ... nanoseconds. *)
Definition example_clock : Clock := mkClock (fun i => 1000 * Z.of_nat i) 0.

(** The process once [main] has set [logger]: nothing logged yet. *)
Definition serving : Server := mkServer start (Some []) example_clock.

(** A source whose first six draws give the code [abc123], and the globals
    after [{"original": url}] was posted to a fresh process with it. *)
Definition abc123_source : Rand :=
  mkRand (fun i => nth i [0; 1; 2; 53; 54; 55] 0) 0.

Definition stored_abc123 (url : string) : Globals :=
  fst (shortenHandler (mkGlobals ∅ abc123_source) (post_original url)).

(** * Properties *)

(** ** The generator *)

Lemma len_chars : len chars = 62.
Proof. reflexivity. Qed.

(** Every index below [len(chars)] holds an alphanumeric byte, so
    [chars[rand.Intn(len(chars))]] never leaves the string. *)
Lemma index_in_range (k : Z) :
  0 <= k < len chars ->
  String.get (Z.to_nat k) chars = Some (byte_at chars k)
  /\ is_alnum (byte_at chars k) = true
  /\ one_of chars (byte_at chars k) = true.
Proof.
  rewrite len_chars. intros Hk. unfold byte_at.
  assert (Hn : (Z.to_nat k < 62)%nat) by lia.
  generalize dependent (Z.to_nat k). intros n Hn.
  do 62 (destruct n as [|n]; [repeat split; reflexivity|]).
  lia.
Qed.

Lemma rand_Intn_range (g : Rand) (n : Z) :
  0 < n -> 0 <= fst (rand_Intn g n) < n.
Proof. intros Hn. unfold rand_Intn. simpl. apply Z.mod_pos_bound. exact Hn. Qed.

(** The loop from index [a] on: the bytes below [a] stay, the others are
    drawn one after the other. *)
Lemma fill_loop (k : nat) :
  forall (a : nat) (l : list ascii) (g : Rand),
    (a + k)%nat = length l ->
    foldl fill_byte (l, g) (seq a k)
    = (take a l ++ map (fun j => drawn g (j - a)) (seq a k),
       mkRand (draws g) (taken g + k)).
Proof.
  induction k as [|k IH]; intros a l g Hlen.
  - simpl. rewrite Nat.add_0_r in *. rewrite take_ge by lia.
    rewrite app_nil_r. destruct g; reflexivity.
  - cbn [seq foldl]. unfold fill_byte at 2. cbn [rand_Intn].
    rewrite IH by (rewrite length_insert; lia).
    cbn [draws taken]. f_equal.
    + rewrite (take_S_r _ _ (byte_at chars (draws g (taken g) mod len chars))).
      2:{ apply list_lookup_insert_eq. lia. }
      rewrite take_insert_ge by lia.
      rewrite <- app_assoc. cbn [app map]. f_equal. f_equal.
      * unfold drawn. rewrite Nat.sub_diag, Nat.add_0_r. reflexivity.
      * apply map_ext_in. intros j Hj. apply in_seq in Hj. unfold drawn.
        cbn [draws taken]. do 3 f_equal. lia.
    + f_equal. lia.
Qed.

Lemma generateShortCode_eq (g : Rand) :
  generateShortCode g
  = (string_of_list_ascii (map (drawn g) (seq 0 6)), mkRand (draws g) (taken g + 6)).
Proof.
  unfold generateShortCode. cbv zeta. rewrite length_replicate.
  rewrite (fill_loop 6 0 (replicate 6 (byte_of 0)) g) by reflexivity.
  cbn [take app]. reflexivity.
Qed.

Lemma drawn_alnum (g : Rand) (i : nat) :
  is_alnum (drawn g i) = true /\ one_of chars (drawn g i) = true.
Proof.
  unfold drawn.
  destruct (index_in_range (draws g (taken g + i) mod len chars)) as (_ & H1 & H2).
  - apply Z.mod_pos_bound. rewrite len_chars. lia.
  - split; assumption.
Qed.

Lemma length_string_of_list (l : list ascii) :
  String.length (string_of_list_ascii l) = length l.
Proof. induction l as [|c l IH]; simpl; congruence. Qed.

Lemma all_bytes_string_of_list (p : ascii -> bool) (l : list ascii) :
  (forall c, In c l -> p c = true) -> all_bytes p (string_of_list_ascii l) = true.
Proof.
  induction l as [|c l IH]; intros H; simpl; [reflexivity|].
  rewrite H by (left; reflexivity). simpl. apply IH. intros c' Hc'. apply H. right. exact Hc'.
Qed.

Lemma generateShortCode_length (g : Rand) :
  String.length (fst (generateShortCode g)) = 6%nat.
Proof.
  rewrite generateShortCode_eq. cbn [fst].
  rewrite length_string_of_list, length_map, length_seq. reflexivity.
Qed.

Lemma generateShortCode_bytes (p : ascii -> bool) (g : Rand) :
  (forall i, p (drawn g i) = true) ->
  all_bytes p (fst (generateShortCode g)) = true.
Proof.
  intros Hp. rewrite generateShortCode_eq. cbn [fst].
  apply all_bytes_string_of_list. intros c Hc.
  apply in_map_iff in Hc as (i & <- & _). apply Hp.
Qed.

(** C2. For every state of the random source, [generateShortCode] returns
    a string of length exactly 6, every byte of which is one of the 62
    bytes of [chars], that is a letter a-z or A-Z or a digit 0-9. *)
Theorem generateShortCode_length_alphabet (g : Rand) :
  String.length (fst (generateShortCode g)) = 6%nat
  /\ all_bytes is_alnum (fst (generateShortCode g)) = true
  /\ all_bytes (one_of chars) (fst (generateShortCode g)) = true.
Proof.
  split; [|split].
  - apply generateShortCode_length.
  - apply generateShortCode_bytes. intros i. apply drawn_alnum.
  - apply generateShortCode_bytes. intros i. apply drawn_alnum.
Qed.

(** ** The shorten operation *)

Lemma shortenHandler_other_method (st : Globals) (r : Request) :
  Method r <> MethodPost ->
  shortenHandler st r
  = (st, Reply (http_Error NewRecorder "Method not allowed" StatusMethodNotAllowed)).
Proof.
  intros Hm. unfold shortenHandler.
  destruct (String.eqb_spec (Method r) MethodPost) as [E|_]; [contradiction|reflexivity].
Qed.

Lemma shortenHandler_decode_error (st : Globals) (r : Request) (p : URLPair) (e : DecodeError) :
  Method r = MethodPost ->
  json_Decode (Body r) zero_URLPair = (p, Some e) ->
  shortenHandler st r
  = (st, Reply (http_Error NewRecorder "Invalid request body" StatusBadRequest)).
Proof.
  intros Hm Hd. unfold shortenHandler. rewrite Hm, String.eqb_refl, Hd. reflexivity.
Qed.

Lemma shortenHandler_decoded (st : Globals) (r : Request) (urlPair : URLPair) :
  Method r = MethodPost ->
  json_Decode (Body r) zero_URLPair = (urlPair, None) ->
  shortenHandler st r
  = (mkGlobals (<[fst (generateShortCode (rand st)) := Original urlPair]> (urlMap st))
       (snd (generateShortCode (rand st))),
     Reply (json_Encode (Header_Set NewRecorder "Content-Type" "application/json")
              (<["short_url" := "http://localhost:8080/" +:+ fst (generateShortCode (rand st))]>
                 (<["short_code" := fst (generateShortCode (rand st))]> ∅)))).
Proof.
  intros Hm Hd. unfold shortenHandler. rewrite Hm, String.eqb_refl, Hd.
  destruct (generateShortCode (rand st)) as [shortCode g]. reflexivity.
Qed.

(** C3. A POST to [/shorten] whose body decodes (the decoder returns no
    error) stores the generated code with the submitted original URL in
    [urlMap] and replies 200 with a JSON object whose [short_code] is the
    generated code and whose [short_url] is ["http://localhost:8080/"]
    followed by that code. *)
Theorem shorten_stores_and_replies (st : Globals) (r : Request) (urlPair : URLPair) :
  Method r = MethodPost ->
  json_Decode (Body r) zero_URLPair = (urlPair, None) ->
  let shortCode := fst (generateShortCode (rand st)) in
  let st' := fst (shortenHandler st r) in
  let o := snd (shortenHandler st r) in
  urlMap st' = <[shortCode := Original urlPair]> (urlMap st)
  /\ urlMap st' !! shortCode = Some (Original urlPair)
  /\ status o = Some StatusOK
  /\ header o "Content-Type" = Some "application/json"
  /\ json_member o "short_code" = Some shortCode
  /\ json_member o "short_url" = Some ("http://localhost:8080/" +:+ shortCode).
Proof.
  intros Hm Hd shortCode st' o. subst st' o.
  rewrite (shortenHandler_decoded st r urlPair Hm Hd). cbn [fst snd urlMap].
  split; [reflexivity|]. split; [apply lookup_insert_eq|].
  split; [reflexivity|]. split; [reflexivity|].
  unfold json_member, json_Encode, Write, Header_Set, NewRecorder.
  cbn [body Wrote app].
  split.
  - rewrite lookup_insert_ne by discriminate. apply lookup_insert_eq.
  - apply lookup_insert_eq.
Qed.

(** C5. A request to [/shorten] whose method is not POST is answered 405
    Method Not Allowed; the reply does not depend on the body, and the
    globals (the map, and the random source that a generated code would
    have advanced) are as before. *)
Theorem shorten_rejects_other_methods (st : Globals) (r : Request) :
  Method r <> MethodPost ->
  status (snd (shortenHandler st r)) = Some StatusMethodNotAllowed
  /\ body (snd (shortenHandler st r)) = [Text ("Method not allowed" +:+ LF)]
  /\ fst (shortenHandler st r) = st
  /\ forall b : Payload,
       shortenHandler st (mkRequest (Method r) (URL_Path r) b) = shortenHandler st r.
Proof.
  intros Hm. rewrite (shortenHandler_other_method st r Hm).
  repeat split. intros b. apply shortenHandler_other_method. exact Hm.
Qed.

(** C6. A POST to [/shorten] whose body fails to decode into [URLPair] is
    answered 400 Bad Request, and nothing is stored: the globals are as
    before. *)
Theorem shorten_rejects_undecodable_body (st : Globals) (r : Request)
    (p : URLPair) (e : DecodeError) :
  Method r = MethodPost ->
  json_Decode (Body r) zero_URLPair = (p, Some e) ->
  status (snd (shortenHandler st r)) = Some StatusBadRequest
  /\ body (snd (shortenHandler st r)) = [Text ("Invalid request body" +:+ LF)]
  /\ fst (shortenHandler st r) = st.
Proof.
  intros Hm Hd. rewrite (shortenHandler_decode_error st r p e Hm Hd). repeat split.
Qed.

(** ** The redirect operation *)

Lemma hexEscapeNonASCII_ascii (s : string) :
  all_bytes is_ascii s = true -> hexEscapeNonASCII s = s.
Proof.
  induction s as [|c s IH]; simpl; [reflexivity|].
  intros H. apply andb_prop in H as [Hc Hs]. unfold is_ascii in Hc.
  apply Z.ltb_lt in Hc. destruct (Z.leb_spec 128 (byte_val c)); [lia|].
  rewrite IH by exact Hs. reflexivity.
Qed.

Section RedirectProperties.

Variable Parse : string -> option URL.

Lemma redirect_target_unchanged (oldpath url : string) :
  sent_unchanged Parse url = true ->
  hexEscapeNonASCII (redirect_target Parse oldpath url) = url.
Proof.
  unfold sent_unchanged, redirect_target. intros H.
  apply andb_prop in H as [Hascii Hparse].
  destruct (Parse url) as [u|].
  - apply negb_true_iff in Hparse. rewrite Hparse.
    apply hexEscapeNonASCII_ascii. exact Hascii.
  - apply hexEscapeNonASCII_ascii. exact Hascii.
Qed.

Lemma http_Redirect_Code (w : Response) (r : Request) (url : string) (code : Z) :
  Code (http_Redirect Parse w r url code) = code.
Proof.
  unfold http_Redirect.
  destruct (negb _ && (_ || _)), (negb _ && String.eqb _ _); reflexivity.
Qed.

Lemma http_Redirect_Location (w : Response) (r : Request) (url : string) (code : Z) :
  Header (http_Redirect Parse w r url code) !! "Location"
  = Some (hexEscapeNonASCII (redirect_target Parse (URL_Path r) url)).
Proof.
  unfold http_Redirect.
  destruct (negb _ && (_ || _)), (negb _ && String.eqb _ _);
    cbn [Header Write WriteHeader Header_Set];
    rewrite ?(lookup_insert_ne _ "Content-Type" "Location") by discriminate;
    apply lookup_insert_eq.
Qed.

Lemma redirectHandler_miss (st : Globals) (r : Request) (c : ascii) (key : string) :
  URL_Path r = String c key ->
  urlMap st !! key = None ->
  redirectHandler Parse st r
  = (st, Reply (http_Error NewRecorder "Short code not found" StatusNotFound)).
Proof. intros Hp Hk. unfold redirectHandler. rewrite Hp, Hk. reflexivity. Qed.

Lemma redirectHandler_hit (st : Globals) (r : Request) (c : ascii) (key url : string) :
  URL_Path r = String c key ->
  urlMap st !! key = Some url ->
  redirectHandler Parse st r
  = (st, Reply (http_Redirect Parse NewRecorder r url StatusTemporaryRedirect)).
Proof. intros Hp Hk. unfold redirectHandler. rewrite Hp, Hk. reflexivity. Qed.

Lemma redirectHandler_globals (st : Globals) (r : Request) :
  fst (redirectHandler Parse st r) = st.
Proof.
  unfold redirectHandler. destruct (URL_Path r) as [|c key]; [reflexivity|].
  destruct (urlMap st !! key); reflexivity.
Qed.

(** C4, amended.  For a GET request the lookup key is the path without
    its leading slash.  When the key is absent from [urlMap] the reply is
    404.  When it is present the reply is a 307 Temporary Redirect whose
    Location header is what [http.Redirect] sends for the stored URL: the
    stored URL itself when that is ASCII and [url.Parse] refuses it or
    finds a scheme or a host in it.  The reply is 404 exactly when the key
    is absent. *)
Theorem redirect_not_found_iff_absent (st : Globals) (key : string) (b : Payload) :
  let r := mkRequest MethodGet ("/" +:+ key) b in
  let o := snd (redirectHandler Parse st r) in
  (urlMap st !! key = None ->
     o = Reply (http_Error NewRecorder "Short code not found" StatusNotFound))
  /\ (forall url, urlMap st !! key = Some url ->
        o = Reply (http_Redirect Parse NewRecorder r url StatusTemporaryRedirect)
        /\ status o = Some StatusTemporaryRedirect
        /\ header o "Location"
           = Some (hexEscapeNonASCII (redirect_target Parse ("/" +:+ key) url))
        /\ (sent_unchanged Parse url = true -> header o "Location" = Some url))
  /\ (status o = Some StatusNotFound <-> urlMap st !! key = None).
Proof.
  intros r o. subst o.
  assert (Hp : URL_Path r = String "/" key) by reflexivity.
  split; [|split].
  - intros Hk. rewrite (redirectHandler_miss st r _ key Hp Hk). reflexivity.
  - intros url Hk. rewrite (redirectHandler_hit st r _ key url Hp Hk). cbn [snd status header].
    rewrite http_Redirect_Code, http_Redirect_Location.
    split; [reflexivity|]. split; [reflexivity|]. split; [reflexivity|].
    intros Hu. f_equal. apply redirect_target_unchanged. exact Hu.
  - destruct (urlMap st !! key) as [url|] eqn:Hk.
    + rewrite (redirectHandler_hit st r _ key url Hp Hk). cbn [snd status].
      rewrite http_Redirect_Code. split; discriminate.
    + rewrite (redirectHandler_miss st r _ key Hp Hk). split; reflexivity.
Qed.

(** C1, amended.  Round trip: after a successful POST to [/shorten] that
    returns short code [c], a GET of ["/" + c] is answered 307, and its
    Location header is what [http.Redirect] sends for the original URL:
    the original URL itself when that is ASCII and [url.Parse] refuses it or
    finds a scheme or a host in it. *)
Theorem shorten_then_redirect (st : Globals) (r : Request) (urlPair : URLPair) (b : Payload) :
  Method r = MethodPost ->
  json_Decode (Body r) zero_URLPair = (urlPair, None) ->
  exists c : string,
    json_member (snd (shortenHandler st r)) "short_code" = Some c
    /\ let st' := fst (shortenHandler st r) in
       let o := snd (redirectHandler Parse st' (mkRequest MethodGet ("/" +:+ c) b)) in
       status o = Some StatusTemporaryRedirect
       /\ header o "Location"
          = Some (hexEscapeNonASCII (redirect_target Parse ("/" +:+ c) (Original urlPair)))
       /\ (sent_unchanged Parse (Original urlPair) = true ->
           header o "Location" = Some (Original urlPair)).
Proof.
  intros Hm Hd. exists (fst (generateShortCode (rand st))).
  rewrite (shortenHandler_decoded st r urlPair Hm Hd). cbn [fst snd].
  split.
  - unfold json_member, json_Encode, Write, Header_Set, NewRecorder.
    cbn [body Wrote app].
    rewrite lookup_insert_ne by discriminate. apply lookup_insert_eq.
  - cbv zeta.
    erewrite (redirectHandler_hit _ (mkRequest MethodGet _ b) "/"
                (fst (generateShortCode (rand st))) (Original urlPair));
      [|reflexivity|apply lookup_insert_eq].
    cbn [snd status header].
    rewrite http_Redirect_Code, http_Redirect_Location. cbn [URL_Path].
    split; [reflexivity|]. split; [reflexivity|].
    intros Hu. f_equal. apply redirect_target_unchanged. exact Hu.
Qed.

End RedirectProperties.

(** ** The map across calls *)

(** What [shortenHandler] does to the globals: nothing, or one insertion
    under the code it generated. *)
Lemma shortenHandler_globals (st : Globals) (r : Request) :
  fst (shortenHandler st r) = st
  \/ exists url : string,
       fst (shortenHandler st r)
       = mkGlobals (<[fst (generateShortCode (rand st)) := url]> (urlMap st))
           (snd (generateShortCode (rand st))).
Proof.
  destruct (String.eqb_spec (Method r) MethodPost) as [Hm|Hm].
  - destruct (json_Decode (Body r) zero_URLPair) as [p [e|]] eqn:Hd.
    + left. rewrite (shortenHandler_decode_error st r p e Hm Hd). reflexivity.
    + right. exists (Original p). rewrite (shortenHandler_decoded st r p Hm Hd). reflexivity.
  - left. rewrite (shortenHandler_other_method st r Hm). reflexivity.
Qed.

Lemma shortenHandler_keeps_keys (st : Globals) (r : Request) (k : string) :
  is_Some (urlMap st !! k) -> is_Some (urlMap (fst (shortenHandler st r)) !! k).
Proof.
  intros Hk. destruct (shortenHandler_globals st r) as [->|[url ->]]; [exact Hk|].
  cbn [urlMap]. rewrite lookup_insert_is_Some. 
  destruct (decide (fst (generateShortCode (rand st)) = k)); [left|right]; auto.
Qed.

Lemma shortenHandler_six_byte_keys (st : Globals) (r : Request) :
  six_byte_keys st -> six_byte_keys (fst (shortenHandler st r)).
Proof.
  intros Hst. destruct (shortenHandler_globals st r) as [->|[url ->]]; [exact Hst|].
  intros k. cbn [urlMap]. rewrite lookup_insert_is_Some.
  intros [<-|[_ Hk]]; [|apply Hst, Hk].
  apply generateShortCode_length.
Qed.

Section ServiceProperties.

Variable Parse : string -> option URL.

Lemma serve_keeps_keys (st : Globals) (c : Call) (k : string) :
  is_Some (urlMap st !! k) -> is_Some (urlMap (fst (serve Parse st c)) !! k).
Proof.
  destruct c as [r|r]; cbn [serve].
  - apply shortenHandler_keeps_keys.
  - rewrite redirectHandler_globals. auto.
Qed.

Lemma serve_six_byte_keys (st : Globals) (c : Call) :
  six_byte_keys st -> six_byte_keys (fst (serve Parse st c)).
Proof.
  destruct c as [r|r]; cbn [serve].
  - apply shortenHandler_six_byte_keys.
  - rewrite redirectHandler_globals. auto.
Qed.

Lemma run_keeps_keys (calls : list Call) :
  forall (st : Globals) (k : string),
    is_Some (urlMap st !! k) -> is_Some (urlMap (run Parse st calls) !! k).
Proof.
  induction calls as [|c calls IH]; intros st k Hk; [exact Hk|].
  cbn [run foldl]. apply IH. apply serve_keeps_keys. exact Hk.
Qed.

Lemma run_six_byte_keys (calls : list Call) :
  forall st : Globals, six_byte_keys st -> six_byte_keys (run Parse st calls).
Proof.
  induction calls as [|c calls IH]; intros st Hst; [exact Hst|].
  cbn [run foldl]. apply IH. apply serve_six_byte_keys. exact Hst.
Qed.

(** C7. In every state reached from the empty map by calls of the two
    handlers, every stored key is six bytes long, so the empty string is
    not a key, and a GET of the root path ["/"], whose lookup key is the
    empty string, is answered 404. *)
Theorem root_path_not_found (g : Rand) (calls : list Call) (b : Payload) :
  let st := run Parse (mkGlobals ∅ g) calls in
  let r := mkRequest MethodGet "/" b in
  six_byte_keys st
  /\ urlMap st !! EmptyString = None
  /\ redirectHandler Parse st r
     = (st, Reply (http_Error NewRecorder "Short code not found" StatusNotFound))
  /\ status (snd (redirectHandler Parse st r)) = Some StatusNotFound.
Proof.
  intros st r.
  assert (Hkeys : six_byte_keys st).
  { apply run_six_byte_keys. intros k [v Hk]. cbn [urlMap] in Hk.
    rewrite lookup_empty in Hk. discriminate. }
  assert (Hroot : urlMap st !! EmptyString = None).
  { destruct (urlMap st !! EmptyString) as [v|] eqn:Hk; [|reflexivity].
    assert (H6 : String.length EmptyString = 6%nat) by (apply Hkeys; eauto).
    discriminate. }
  split; [exact Hkeys|]. split; [exact Hroot|].
  rewrite (redirectHandler_miss Parse st r "/" EmptyString eq_refl Hroot).
  split; reflexivity.
Qed.

(** C8. The map only grows, and only through the shorten operation: the
    redirect operation leaves the globals as they are whatever its
    outcome; the shorten operation leaves them as they are on its 405 and
    400 paths; a call of the shorten operation changes the map by at most
    one insertion; and a key that is in the map stays in it across every
    call and every sequence of calls. *)
Theorem map_only_grows (st : Globals) (r : Request) :
  fst (redirectHandler Parse st r) = st
  /\ (Method r <> MethodPost -> fst (shortenHandler st r) = st)
  /\ (forall p e, json_Decode (Body r) zero_URLPair = (p, Some e) ->
        fst (shortenHandler st r) = st)
  /\ (urlMap (fst (shortenHandler st r)) = urlMap st
      \/ exists code url,
           urlMap (fst (shortenHandler st r)) = <[code := url]> (urlMap st))
  /\ (forall (calls : list Call) (k : string),
        is_Some (urlMap st !! k) -> is_Some (urlMap (run Parse st calls) !! k)).
Proof.
  split; [apply redirectHandler_globals|].
  split; [intros Hm; rewrite (shortenHandler_other_method st r Hm); reflexivity|].
  split.
  - intros p e Hd. destruct (String.eqb_spec (Method r) MethodPost) as [Hm|Hm].
    + rewrite (shortenHandler_decode_error st r p e Hm Hd). reflexivity.
    + rewrite (shortenHandler_other_method st r Hm). reflexivity.
  - split.
    + destruct (shortenHandler_globals st r) as [->|[url ->]]; [left; reflexivity|].
      right. eexists _, url. reflexivity.
    + intros calls k. apply run_keeps_keys.
Qed.

(** [http.Redirect] on a fresh response: the status, the Location, and
    what depends on the method, the Content-Type for GET and HEAD and the
    HTML body for GET. *)
Lemma http_Redirect_fresh (r : Request) (url : string) (code : Z) :
  http_Redirect Parse NewRecorder r url code
  = mkResponse code
      (let location : gmap string string :=
         <["Location" := hexEscapeNonASCII (redirect_target Parse (URL_Path r) url)]> ∅ in
       if String.eqb (Method r) MethodGet || String.eqb (Method r) MethodHead
       then <["Content-Type" := "text/html; charset=utf-8"]> location
       else location)
      (if String.eqb (Method r) MethodGet
       then [Text ("<a href=" +:+ DQUOTE
                   +:+ htmlEscape (redirect_target Parse (URL_Path r) url) +:+ DQUOTE
                   +:+ ">" +:+ StatusText code +:+ "</a>." +:+ LF +:+ LF)]
       else []).
Proof.
  unfold http_Redirect.
  change (bool_decide (is_Some (Header NewRecorder !! "Content-Type"))) with false.
  cbn [negb andb].
  destruct (String.eqb (Method r) MethodGet), (String.eqb (Method r) MethodHead);
    reflexivity.
Qed.

(** C9, amended.  The redirect operation does not look at the method.  For
    every method [m] and every request, the request sent with method [m]
    gets the status code, the Location header and every header other than
    Content-Type that it gets as a GET; it gets the very same outcome when
    the GET is not answered 307 (a 404, or the panic on the empty path);
    and the globals, the map among them, are left as they were either way.
    On a 307 the two replies differ only by what [http.Redirect] makes of
    the method: the body is the HTML link of the GET when [m] is GET and
    empty otherwise, and the Content-Type is [text/html; charset=utf-8]
    when [m] is GET or HEAD and absent otherwise. *)
Theorem redirect_ignores_method (st : Globals) (r : Request) (m : string) :
  let o := snd (redirectHandler Parse st (with_method m r)) in
  let o' := snd (redirectHandler Parse st (with_method MethodGet r)) in
  status o = status o'
  /\ header o "Location" = header o' "Location"
  /\ (forall key : string, key <> "Content-Type" -> header o key = header o' key)
  /\ (status o' = Some StatusNotFound -> o = o')
  /\ (status o' <> Some StatusTemporaryRedirect -> o = o')
  /\ (status o' = Some StatusTemporaryRedirect ->
        (exists key url : string,
            path_key (URL_Path r) = Some key
            /\ urlMap st !! key = Some url
            /\ body o'
               = [Text ("<a href=" +:+ DQUOTE
                        +:+ htmlEscape (redirect_target Parse (URL_Path r) url) +:+ DQUOTE
                        +:+ ">Temporary Redirect</a>." +:+ LF +:+ LF)])
        /\ body o = (if String.eqb m MethodGet then body o' else [])
        /\ header o "Content-Type"
           = (if String.eqb m MethodGet || String.eqb m MethodHead
              then Some "text/html; charset=utf-8" else None))
  /\ fst (redirectHandler Parse st (with_method m r)) = st
  /\ fst (redirectHandler Parse st (with_method MethodGet r)) = st.
Proof.
  intros o o'. subst o o'. rewrite !redirectHandler_globals.
  unfold redirectHandler. cbn [with_method URL_Path path_key].
  destruct (URL_Path r) as [|c key] eqn:Hpath.
  { cbn [snd status header body].
    do 5 (split; [reflexivity || (intros; reflexivity)|]).
    split; [discriminate|]. split; reflexivity. }
  destruct (urlMap st !! key) as [url|] eqn:Hk.
  2:{ cbn [snd status header body].
      do 5 (split; [reflexivity || (intros; reflexivity)|]).
      split; [discriminate|]. split; reflexivity. }
  cbn [snd]. rewrite !http_Redirect_fresh. cbn [Method URL_Path with_method].
  change (String.eqb MethodGet MethodGet) with true.
  cbn [orb status header body Code Header Wrote].
  split; [reflexivity|].
  split.
  { destruct (String.eqb m MethodGet || String.eqb m MethodHead);
      rewrite ?(lookup_insert_ne _ "Content-Type" "Location") by discriminate;
      reflexivity. }
  split.
  { intros k Hkey.
    destruct (String.eqb m MethodGet || String.eqb m MethodHead);
      rewrite ?(lookup_insert_ne _ "Content-Type" k) by congruence;
      reflexivity. }
  split; [discriminate|].
  split; [intros H; exfalso; apply H; reflexivity|].
  split; [|split; reflexivity].
  intros _. split.
  { exists key, url. split; [reflexivity|]. split; [exact Hk|].
    rewrite Hpath. reflexivity. }
  split.
  { destruct (String.eqb m MethodGet); reflexivity. }
  destruct (String.eqb m MethodGet || String.eqb m MethodHead).
  - apply lookup_insert_eq.
  - rewrite lookup_insert_ne by discriminate. apply lookup_empty.
Qed.

End ServiceProperties.

(** ** Bodies without the [original] field *)

Lemma store_members_spared (members : list (string * JSON)) :
  forall p : URLPair,
    forallb spares_original members = true ->
    exists sc : string,
      foldl store_member (p, None) members = (mkURLPair (Original p) sc, None).
Proof.
  induction members as [|[k v] members IH]; intros p H.
  - exists (ShortCode p). destruct p; reflexivity.
  - cbn [forallb] in H. apply andb_prop in H as [Hm Hrest].
    cbn [foldl]. unfold spares_original in Hm. unfold store_member at 2.
    cbn [fst snd] in *.
    destruct (field_named k) as [[|]|].
    + discriminate.
    + destruct v; try discriminate; cbn [store_string first_error].
      * destruct (IH (mkURLPair (Original p) (ShortCode p)) Hrest) as [sc Hsc].
        exists sc. exact Hsc.
      * destruct (IH (mkURLPair (Original p) s) Hrest) as [sc Hsc].
        exists sc. exact Hsc.
    + apply IH. exact Hrest.
Qed.

Lemma json_Decode_lacks_original (b : Payload) :
  lacks_original b = true ->
  exists sc : string, json_Decode b zero_URLPair = (mkURLPair EmptyString sc, None).
Proof.
  destruct b as [|v]; [discriminate|].
  destruct v; try discriminate; cbn [lacks_original json_Decode].
  - intros _. exists EmptyString. reflexivity.
  - apply store_members_spared.
Qed.

(** Once a member has failed, the error is what [Decode] returns. *)
Lemma store_members_failed (members : list (string * JSON)) :
  forall (p : URLPair) (e : DecodeError),
    exists p' : URLPair, foldl store_member (p, Some e) members = (p', Some e).
Proof.
  induction members as [|[k v] members IH]; intros p e; [exists p; reflexivity|].
  cbn [foldl]. unfold store_member at 2. cbn [fst snd].
  destruct (field_named k) as [[|]|].
  - destruct (store_string v (Original p)) as [s e']. apply IH.
  - destruct (store_string v (ShortCode p)) as [s e']. apply IH.
  - apply IH.
Qed.

(** Without an [original] member, the members that do not all spare
    [Original] hold a [short_code] that is neither a string nor [null],
    and decoding reports it. *)
Lemma store_members_ill_typed (members : list (string * JSON)) :
  forall p : URLPair,
    names_original (JObject members) = false ->
    forallb spares_original members = false ->
    exists (p' : URLPair) (e : DecodeError),
      foldl store_member (p, None) members = (p', Some e).
Proof.
  induction members as [|[k v] members IH]; intros p Hnames Hspares; [discriminate|].
  cbn [names_original existsb forallb fst] in *.
  apply orb_false_elim in Hnames as [Hk Hnames].
  unfold spares_original in Hspares. cbn [fst snd] in *.
  cbn [foldl]. unfold store_member at 2. cbn [fst snd].
  destruct (field_named k) as [[|]|].
  - discriminate.
  - destruct v; cbn [store_string first_error andb] in *;
      try (destruct (store_members_failed members
                       (mkURLPair (Original p) (ShortCode p)) UnmarshalTypeError)
             as [p' Hp']; exists p', UnmarshalTypeError; exact Hp');
      apply IH; assumption.
  - cbn [andb] in Hspares. apply IH; assumption.
Qed.

(** C10, amended.  A POST to [/shorten] whose body is the JSON value
    [null], or a JSON object none of whose keys names the [original] field
    and whose [short_code] members, if any, are strings or [null] (the
    object without members, for one), is not rejected with 400: the reply
    is 200 and the empty string is stored as the original URL under the
    generated code.  Every other well-formed body without an [original]
    member (an array, a number, a string, a boolean, or an object with a
    [short_code] member that is neither a string nor [null]) is rejected
    with 400, and nothing is stored. *)
Theorem shorten_accepts_missing_original (st : Globals) (r : Request) :
  Method r = MethodPost ->
  let shortCode := fst (generateShortCode (rand st)) in
  (lacks_original (Body r) = true ->
     status (snd (shortenHandler st r)) = Some StatusOK
     /\ json_member (snd (shortenHandler st r)) "short_code" = Some shortCode
     /\ urlMap (fst (shortenHandler st r)) !! shortCode = Some EmptyString)
  /\ (forall v : JSON,
        Body r = JSONValue v ->
        names_original v = false ->
        lacks_original (Body r) = false ->
        status (snd (shortenHandler st r)) = Some StatusBadRequest
        /\ fst (shortenHandler st r) = st).
Proof.
  intros Hm shortCode. subst shortCode. split.
  - intros Hb.
    destruct (json_Decode_lacks_original (Body r) Hb) as [sc Hd].
    rewrite (shortenHandler_decoded st r _ Hm Hd). cbn [fst snd urlMap Original].
    split; [reflexivity|]. split.
    + unfold json_member, json_Encode, Write, Header_Set, NewRecorder.
      cbn [body Wrote app].
      rewrite lookup_insert_ne by discriminate. apply lookup_insert_eq.
    + apply lookup_insert_eq.
  - intros v Hv Hnames Hlacks.
    assert (Hd : exists (p : URLPair) (e : DecodeError),
               json_Decode (Body r) zero_URLPair = (p, Some e)).
    { rewrite Hv in *. destruct v; cbn [lacks_original json_Decode] in *;
        try discriminate; try (eexists _, _; reflexivity).
      apply store_members_ill_typed; assumption. }
    destruct Hd as (p & e & Hd).
    rewrite (shortenHandler_decode_error st r p e Hm Hd). split; reflexivity.
Qed.

(** * The properties on a run *)

Lemma shorten_stores_and_replies_witness :
  let r := post_original "https://github.com" in
  json_Decode (Body r) zero_URLPair = (mkURLPair "https://github.com" EmptyString, None)
  /\ urlMap (fst (shortenHandler start r)) !! "dkryFM" = Some "https://github.com"
  /\ status (snd (shortenHandler start r)) = Some 200
  /\ json_member (snd (shortenHandler start r)) "short_code" = Some "dkryFM"
  /\ json_member (snd (shortenHandler start r)) "short_url"
     = Some "http://localhost:8080/dkryFM".
Proof.
  intros r. split; [reflexivity|].
  destruct (shorten_stores_and_replies start r
              (mkURLPair "https://github.com" EmptyString) eq_refl eq_refl)
    as (_ & Hstored & Hstatus & _ & Hcode & Hurl).
  repeat split; assumption.
Defined.

Lemma shorten_rejects_other_methods_witness :
  let r := mkRequest MethodGet "/shorten" NoJSON in
  Method r <> MethodPost
  /\ status (snd (shortenHandler start r)) = Some 405
  /\ fst (shortenHandler start r) = start.
Proof.
  intros r. assert (Hm : Method r <> MethodPost) by discriminate.
  split; [exact Hm|].
  destruct (shorten_rejects_other_methods start r Hm) as (Hstatus & _ & Hst & _).
  split; assumption.
Defined.

Lemma shorten_rejects_undecodable_body_witness :
  let r := mkRequest MethodPost "/shorten" NoJSON in
  json_Decode (Body r) zero_URLPair = (zero_URLPair, Some SyntaxError)
  /\ status (snd (shortenHandler start r)) = Some 400
  /\ fst (shortenHandler start r) = start.
Proof.
  intros r. split; [reflexivity|].
  destruct (shorten_rejects_undecodable_body start r zero_URLPair SyntaxError
              eq_refl eq_refl) as (Hstatus & _ & Hst).
  split; assumption.
Defined.

Lemma shorten_then_redirect_witness :
  let r := post_original "https://github.com" in
  sent_unchanged url_Parse "https://github.com" = true
  /\ exists c : string,
       json_member (snd (shortenHandler start r)) "short_code" = Some c
       /\ status (visit MethodGet (shortened "https://github.com") ("/" +:+ c)) = Some 307
       /\ header (visit MethodGet (shortened "https://github.com") ("/" +:+ c)) "Location"
          = Some "https://github.com".
Proof.
  intros r. split; [reflexivity|].
  destruct (shorten_then_redirect url_Parse start r
              (mkURLPair "https://github.com" EmptyString) NoJSON eq_refl eq_refl)
    as (c & Hc & Hstatus & _ & Hsame).
  exists c. split; [exact Hc|]. split; [exact Hstatus|]. apply Hsame. reflexivity.
Defined.

Lemma shorten_accepts_missing_original_witness :
  let empty := mkRequest MethodPost "/shorten" (JSONValue (JObject [])) in
  let text := mkRequest MethodPost "/shorten" (JSONValue (JString "https://github.com")) in
  lacks_original (Body empty) = true
  /\ status (snd (shortenHandler start empty)) = Some 200
  /\ urlMap (fst (shortenHandler start empty)) !! "dkryFM" = Some EmptyString
  /\ lacks_original (Body text) = false
  /\ status (snd (shortenHandler start text)) = Some 400
  /\ fst (shortenHandler start text) = start.
Proof.
  intros empty text. split; [reflexivity|].
  destruct (shorten_accepts_missing_original start empty eq_refl) as [Haccept _].
  destruct (Haccept eq_refl) as (Hstatus & _ & Hstored).
  destruct (shorten_accepts_missing_original start text eq_refl) as [_ Hreject].
  destruct (Hreject (JString "https://github.com") eq_refl eq_refl eq_refl)
    as (Hrejected & Hsame).
  repeat split; assumption.
Defined.

(** C1 as stated fails: the original URL [example.com] has no scheme, so
    [http.Redirect] takes it for a path, and the round trip ends on the
    Location [/example.com]. *)
Lemma roundtrip_relative_url :
  json_member (snd (shortenHandler start (post_original "example.com"))) "short_code"
  = Some "dkryFM"
  /\ urlMap (shortened "example.com") !! "dkryFM" = Some "example.com"
  /\ status (visit MethodGet (shortened "example.com") "/dkryFM") = Some 307
  /\ header (visit MethodGet (shortened "example.com") "/dkryFM") "Location"
     = Some "/example.com".
Proof. vm_compute. repeat split. Qed.

(** The same with the empty original URL, and with a byte outside ASCII. *)
Example roundtrip_empty_url :
  header (visit MethodGet (shortened EmptyString) "/dkryFM") "Location" = Some "/".
Proof. vm_compute. reflexivity. Qed.

Example roundtrip_non_ascii_url :
  let e_acute := String (byte_of 195) (String (byte_of 169) EmptyString) in
  header (visit MethodGet (shortened ("https://example.com/" +:+ e_acute)) "/dkryFM")
    "Location"
  = Some "https://example.com/%c3%a9".
Proof. vm_compute. reflexivity. Qed.

(** C9 as stated fails: on a stored code, a GET is answered with a
    Content-Type and an HTML body that a POST is answered without. *)
Lemma redirect_body_depends_on_method :
  let st := shortened "https://github.com" in
  status (visit MethodGet st "/dkryFM") = Some 307
  /\ status (visit MethodPost st "/dkryFM") = Some 307
  /\ header (visit MethodGet st "/dkryFM") "Content-Type" = Some "text/html; charset=utf-8"
  /\ header (visit MethodPost st "/dkryFM") "Content-Type" = None
  /\ body (visit MethodGet st "/dkryFM")
     = [Text ("<a href=" +:+ DQUOTE +:+ "https://github.com" +:+ DQUOTE
              +:+ ">Temporary Redirect</a>." +:+ LF +:+ LF)]
  /\ body (visit MethodPost st "/dkryFM") = [].
Proof. vm_compute. repeat split. Qed.

(** C10 as stated fails: a JSON object without an [original] member whose
    [short_code] is a number, and a JSON array, are well-formed and are
    rejected with 400. *)
Lemma shorten_rejects_wellformed_json :
  let numbered := mkRequest MethodPost "/shorten"
                    (JSONValue (JObject [("short_code", JNumber "5")])) in
  let array := mkRequest MethodPost "/shorten" (JSONValue (JArray [])) in
  status (snd (shortenHandler start numbered)) = Some 400
  /\ fst (shortenHandler start numbered) = start
  /\ status (snd (shortenHandler start array)) = Some 400
  /\ fst (shortenHandler start array) = start.
Proof. cbv zeta. repeat split. Qed.

(** Keys are matched without their case: [ORIGINAL] names the field. *)
Example shorten_folds_key_case :
  let r := mkRequest MethodPost "/shorten"
             (JSONValue (JObject [("ORIGINAL", JString "https://github.com")])) in
  urlMap (fst (shortenHandler start r)) !! "dkryFM" = Some "https://github.com".
Proof. vm_compute. reflexivity. Qed.

(** * Further properties of the code *)

(** ** Codes and draws *)

(** The place of a byte in [chars]. *)
Lemma chars_index_of (n : nat) :
  (n < 62)%nat ->
  String.index 0 (String (byte_at chars (Z.of_nat n)) EmptyString) chars = Some n.
Proof.
  intros Hn. do 62 (destruct n as [|n]; [reflexivity|]). lia.
Qed.

(** [chars] holds no byte twice. *)
Lemma chars_injective (a b : Z) :
  0 <= a < len chars -> 0 <= b < len chars ->
  byte_at chars a = byte_at chars b -> a = b.
Proof.
  rewrite len_chars. intros Ha Hb Heq.
  assert (Hi : Some (Z.to_nat a) = Some (Z.to_nat b)).
  { rewrite <- (chars_index_of (Z.to_nat a)) by lia.
    rewrite <- (chars_index_of (Z.to_nat b)) by lia.
    rewrite !Z2Nat.id by lia. rewrite Heq. reflexivity. }
  injection Hi as Hi. lia.
Qed.

Lemma drawn_injective (g1 g2 : Rand) (i : nat) :
  drawn g1 i = drawn g2 i ->
  draws g1 (taken g1 + i) mod len chars = draws g2 (taken g2 + i) mod len chars.
Proof.
  unfold drawn. apply chars_injective; apply Z.mod_pos_bound; rewrite len_chars; lia.
Qed.

(** [generateShortCode] takes exactly six draws from the source, and byte
    [i] of the code is [chars[d mod len(chars)]] for the [i]-th of them. *)
Theorem generateShortCode_draws (g : Rand) :
  snd (generateShortCode g) = mkRand (draws g) (taken g + 6)
  /\ forall i : nat, (i < 6)%nat ->
       String.get i (fst (generateShortCode g))
       = Some (byte_at chars (draws g (taken g + i) mod len chars)).
Proof.
  rewrite generateShortCode_eq. split; [reflexivity|].
  intros i Hi. cbn [fst].
  do 6 (destruct i as [|i]; [reflexivity|]). lia.
Qed.

(** Two calls of [generateShortCode] return the same code exactly when
    their six draws agree modulo [len(chars)]: no two positions of [chars]
    hold the same byte. *)
Theorem generateShortCode_same_code (g1 g2 : Rand) :
  fst (generateShortCode g1) = fst (generateShortCode g2)
  <-> forall i : nat, (i < 6)%nat ->
        draws g1 (taken g1 + i) mod len chars = draws g2 (taken g2 + i) mod len chars.
Proof.
  rewrite !generateShortCode_eq. cbn [fst map seq string_of_list_ascii]. split.
  - intros Heq i Hi. apply drawn_injective.
    injection Heq as H0 H1 H2 H3 H4 H5.
    do 6 (destruct i as [|i]; [assumption|]). lia.
  - intros Hd. unfold drawn.
    rewrite (Hd 0%nat), (Hd 1%nat), (Hd 2%nat), (Hd 3%nat), (Hd 4%nat), (Hd 5%nat) by lia.
    reflexivity.
Qed.

(** No collision check, last write wins: when the six draws that follow
    repeat the six before them modulo [len(chars)], two accepted POSTs in a
    row get the same short code, and the URL of the first is replaced by
    the URL of the second. *)
Theorem shorten_collision_overwrites (st : Globals) (r1 r2 : Request) (p1 p2 : URLPair) :
  Method r1 = MethodPost ->
  json_Decode (Body r1) zero_URLPair = (p1, None) ->
  Method r2 = MethodPost ->
  json_Decode (Body r2) zero_URLPair = (p2, None) ->
  (forall i : nat, (i < 6)%nat ->
     draws (rand st) (taken (rand st) + i) mod len chars
     = draws (rand st) (taken (rand st) + 6 + i) mod len chars) ->
  let st1 := fst (shortenHandler st r1) in
  let st2 := fst (shortenHandler st1 r2) in
  let code := fst (generateShortCode (rand st)) in
  json_member (snd (shortenHandler st r1)) "short_code" = Some code
  /\ json_member (snd (shortenHandler st1 r2)) "short_code" = Some code
  /\ urlMap st1 !! code = Some (Original p1)
  /\ urlMap st2 !! code = Some (Original p2).
Proof.
  intros Hm1 Hd1 Hm2 Hd2 Hrep st1 st2 code. subst st2 st1 code.
  rewrite (shortenHandler_decoded st r1 p1 Hm1 Hd1). cbn [fst snd].
  rewrite (shortenHandler_decoded _ r2 p2 Hm2 Hd2). cbn [fst snd urlMap rand].
  assert (Hsame : fst (generateShortCode (snd (generateShortCode (rand st))))
                  = fst (generateShortCode (rand st))).
  { rewrite (generateShortCode_eq (rand st)). cbn [snd].
    rewrite !generateShortCode_eq. cbn [fst map seq string_of_list_ascii].
    unfold drawn. cbn [draws taken].
    rewrite (Hrep 0%nat), (Hrep 1%nat), (Hrep 2%nat), (Hrep 3%nat), (Hrep 4%nat),
      (Hrep 5%nat) by lia.
    reflexivity. }
  rewrite Hsame.
  unfold json_member, json_Encode, Write, Header_Set, NewRecorder. cbn [body Wrote app].
  rewrite !(lookup_insert_ne _ "short_url" "short_code") by discriminate.
  rewrite !lookup_insert_eq. repeat split.
Qed.

Lemma shorten_collision_overwrites_witness :
  let st := mkGlobals ∅ (mkRand (fun _ => 5) 0) in
  let r1 := post_original "https://github.com" in
  let r2 := post_original "https://go.dev" in
  json_member (snd (shortenHandler st r1)) "short_code" = Some "ffffff"
  /\ json_member (snd (shortenHandler (fst (shortenHandler st r1)) r2)) "short_code"
     = Some "ffffff"
  /\ urlMap (fst (shortenHandler st r1)) !! "ffffff" = Some "https://github.com"
  /\ urlMap (fst (shortenHandler (fst (shortenHandler st r1)) r2)) !! "ffffff"
     = Some "https://go.dev".
Proof.
  intros st r1 r2.
  exact (shorten_collision_overwrites st r1 r2
           (mkURLPair "https://github.com" EmptyString)
           (mkURLPair "https://go.dev" EmptyString)
           eq_refl eq_refl eq_refl eq_refl (fun i _ => eq_refl)).
Defined.

(** ** The replies of the two handlers *)

(** [shortenHandler] never panics and replies 405, 400 or 200: 405 exactly
    when the method is not POST, whatever the body is; 400 exactly when the
    method is POST and the body fails to decode; 200 exactly when the method
    is POST and the body decodes. *)
Theorem shortenHandler_status (st : Globals) (r : Request) :
  exists w : Response,
    snd (shortenHandler st r) = Reply w
    /\ (Code w = StatusMethodNotAllowed <-> Method r <> MethodPost)
    /\ (Code w = StatusBadRequest
        <-> Method r = MethodPost /\ snd (json_Decode (Body r) zero_URLPair) <> None)
    /\ (Code w = StatusOK
        <-> Method r = MethodPost /\ snd (json_Decode (Body r) zero_URLPair) = None).
Proof.
  destruct (String.eqb_spec (Method r) MethodPost) as [Hm|Hm].
  - destruct (json_Decode (Body r) zero_URLPair) as [p [e|]] eqn:Hd.
    + rewrite (shortenHandler_decode_error st r p e Hm Hd). eexists. split; [reflexivity|].
      cbn. repeat split; try discriminate; try tauto; intros [_ H]; discriminate.
    + rewrite (shortenHandler_decoded st r p Hm Hd). eexists. split; [reflexivity|].
      cbn. repeat split; try discriminate; try tauto; intros [_ H]; congruence.
  - rewrite (shortenHandler_other_method st r Hm). eexists. split; [reflexivity|].
    cbn. repeat split; try discriminate; try tauto.
Qed.

(** [redirectHandler] panics exactly on the empty path, where [Path[1:]]
    is out of range.  On any other path the key is the path without its
    first byte, whatever that byte is, and the reply is 307 when the key is
    in the map and 404 when it is not. *)
Theorem redirectHandler_outcome (Parse : string -> option URL) (st : Globals) (r : Request) :
  (snd (redirectHandler Parse st r) = Panic <-> URL_Path r = EmptyString)
  /\ (status (snd (redirectHandler Parse st r)) = Some StatusTemporaryRedirect
      <-> exists key : string,
            path_key (URL_Path r) = Some key /\ is_Some (urlMap st !! key))
  /\ (status (snd (redirectHandler Parse st r)) = Some StatusNotFound
      <-> exists key : string,
            path_key (URL_Path r) = Some key /\ urlMap st !! key = None).
Proof.
  unfold redirectHandler. destruct (URL_Path r) as [|c key]; cbn [path_key snd status].
  - split; [tauto|].
    split; (split; [discriminate | intros (k & Hk & _); discriminate]).
  - destruct (urlMap st !! key) as [url|] eqn:Hk; cbn [snd status].
    + rewrite http_Redirect_Code.
      split. { split; discriminate. }
      split.
      * split; [|reflexivity]. intros _. exists key. rewrite Hk. eauto.
      * split; [discriminate|].
        intros (k & Hkey & Hnone). injection Hkey as <-. congruence.
    + split. { split; discriminate. }
      split.
      * split; [discriminate|].
        intros (k & Hkey & Hsome). injection Hkey as <-. rewrite Hk in Hsome.
        destruct Hsome; discriminate.
      * split; [|reflexivity]. intros _. exists key. auto.
Qed.

(** A short code sent by the client is not used: two accepted POSTs that
    submit the same original URL have the same effect and the same reply,
    whatever else their bodies or their paths hold. *)
Theorem shorten_ignores_short_code (st : Globals) (r1 r2 : Request) (p1 p2 : URLPair) :
  Method r1 = MethodPost ->
  Method r2 = MethodPost ->
  json_Decode (Body r1) zero_URLPair = (p1, None) ->
  json_Decode (Body r2) zero_URLPair = (p2, None) ->
  Original p1 = Original p2 ->
  shortenHandler st r1 = shortenHandler st r2.
Proof.
  intros Hm1 Hm2 Hd1 Hd2 Ho.
  rewrite (shortenHandler_decoded st r1 p1 Hm1 Hd1), (shortenHandler_decoded st r2 p2 Hm2 Hd2).
  rewrite Ho. reflexivity.
Qed.

Lemma shorten_ignores_short_code_witness :
  let r1 := post_original "https://github.com" in
  let r2 := mkRequest MethodPost "/elsewhere"
              (JSONValue (JObject [("short_code", JString "custom");
                                   ("original", JString "https://github.com");
                                   ("note", JArray [])])) in
  json_Decode (Body r2) zero_URLPair = (mkURLPair "https://github.com" "custom", None)
  /\ shortenHandler start r1 = shortenHandler start r2.
Proof.
  intros r1 r2. split; [reflexivity|].
  exact (shorten_ignores_short_code start r1 r2
           (mkURLPair "https://github.com" EmptyString)
           (mkURLPair "https://github.com" "custom")
           eq_refl eq_refl eq_refl eq_refl eq_refl).
Defined.

(** A call of [shortenHandler] touches the map at the generated code
    only: every other key keeps its URL, and a request for another key is
    answered by [redirectHandler] as it was before the call. *)
Theorem shorten_keeps_other_codes (Parse : string -> option URL)
    (st : Globals) (r r' : Request) :
  path_key (URL_Path r') <> Some (fst (generateShortCode (rand st))) ->
  (forall k : string, k <> fst (generateShortCode (rand st)) ->
     urlMap (fst (shortenHandler st r)) !! k = urlMap st !! k)
  /\ snd (redirectHandler Parse (fst (shortenHandler st r)) r')
     = snd (redirectHandler Parse st r').
Proof.
  intros Hkey.
  assert (Hframe : forall k : string, k <> fst (generateShortCode (rand st)) ->
            urlMap (fst (shortenHandler st r)) !! k = urlMap st !! k).
  { intros k Hk. destruct (shortenHandler_globals st r) as [->|[url ->]]; [reflexivity|].
    cbn [urlMap]. apply lookup_insert_ne. congruence. }
  split; [exact Hframe|].
  unfold redirectHandler. destruct (URL_Path r') as [|c key]; [reflexivity|].
  cbn [path_key] in Hkey. rewrite Hframe by congruence.
  destruct (urlMap st !! key); reflexivity.
Qed.

Lemma shorten_keeps_other_codes_witness :
  let st := shortened "https://github.com" in
  let r := post_original "https://go.dev" in
  fst (generateShortCode (rand st)) = "T07els"
  /\ urlMap (fst (shortenHandler st r)) !! "dkryFM" = Some "https://github.com"
  /\ visit MethodGet (fst (shortenHandler st r)) "/dkryFM" = visit MethodGet st "/dkryFM".
Proof.
  intros st r. split; [reflexivity|].
  assert (Hkey : path_key (URL_Path (mkRequest MethodGet "/dkryFM" NoJSON))
                 <> Some (fst (generateShortCode (rand st)))) by discriminate.
  destruct (shorten_keeps_other_codes url_Parse st r
              (mkRequest MethodGet "/dkryFM" NoJSON) Hkey) as [Hmap Hvisit].
  split; [|exact Hvisit].
  rewrite (Hmap "dkryFM") by discriminate. reflexivity.
Defined.

(** ** What the map holds after a run *)

(** A call of [shortenHandler] either is refused and leaves the globals, or
    is accepted and inserts the submitted URL under the generated code. *)
Lemma shortenHandler_step (st : Globals) (r : Request) :
  (submission (Shorten r) = None /\ fst (shortenHandler st r) = st)
  \/ exists url : string,
       submission (Shorten r) = Some url
       /\ fst (shortenHandler st r)
          = mkGlobals (<[fst (generateShortCode (rand st)) := url]> (urlMap st))
              (snd (generateShortCode (rand st))).
Proof.
  unfold submission.
  destruct (String.eqb_spec (Method r) MethodPost) as [Hm|Hm].
  - destruct (json_Decode (Body r) zero_URLPair) as [p [e|]] eqn:Hd.
    + left. rewrite (shortenHandler_decode_error st r p e Hm Hd). split; reflexivity.
    + right. exists (Original p). rewrite (shortenHandler_decoded st r p Hm Hd).
      split; reflexivity.
  - left. rewrite (shortenHandler_other_method st r Hm). split; reflexivity.
Qed.

Section RunProperties.

Variable Parse : string -> option URL.

Lemma serve_step (st : Globals) (c : Call) :
  (submission c = None /\ fst (serve Parse st c) = st)
  \/ exists url : string,
       submission c = Some url
       /\ fst (serve Parse st c)
          = mkGlobals (<[fst (generateShortCode (rand st)) := url]> (urlMap st))
              (snd (generateShortCode (rand st))).
Proof.
  destruct c as [r|r]; cbn [serve].
  - apply shortenHandler_step.
  - left. rewrite redirectHandler_globals. split; reflexivity.
Qed.

(** An entry of the map after a run was there before it, or was submitted
    by an accepted call of the run under a generated code. *)
Lemma run_entries (calls : list Call) :
  forall (st : Globals) (k v : string),
    urlMap (run Parse st calls) !! k = Some v ->
    urlMap st !! k = Some v
    \/ (v ∈ omap submission calls
        /\ String.length k = 6%nat /\ all_bytes (one_of chars) k = true).
Proof.
  induction calls as [|c calls IH]; intros st k v Hk; [left; exact Hk|].
  cbn [run foldl] in Hk. apply IH in Hk as [Hk|(Hv & Hlen)].
  - destruct (serve_step st c) as [[Hnone Hst]|(url & Hsome & Hst)];
      rewrite Hst in Hk; [left; exact Hk|]. cbn [urlMap] in Hk.
    apply lookup_insert_Some in Hk as [[<- <-]|[_ Hk]]; [|left; exact Hk].
    right. split; [|split].
    + csimpl. rewrite Hsome. apply elem_of_cons. left. reflexivity.
    + apply generateShortCode_length.
    + apply generateShortCode_bytes. intros i. apply drawn_alnum.
  - right. split; [|exact Hlen].
    csimpl. destruct (submission c); [apply elem_of_cons; right|]; exact Hv.
Qed.

(** In the map of a process that started with the empty map, every key is
    a code as [generateShortCode] returns them, six bytes of [chars], and
    every URL is one that an accepted POST to the shorten operation
    submitted: the handlers store nothing of their own. *)
Theorem stored_entries_were_submitted (g : Rand) (calls : list Call) :
  map_Forall
    (fun k v => String.length k = 6%nat
                /\ all_bytes (one_of chars) k = true
                /\ v ∈ omap submission calls)
    (urlMap (run Parse (mkGlobals ∅ g) calls)).
Proof.
  intros k v Hk. apply run_entries in Hk as [Hk|(Hv & Hlen & Hbytes)].
  - cbn [urlMap] in Hk. rewrite lookup_empty in Hk. discriminate.
  - auto.
Qed.

Lemma size_insert_le (m : gmap string string) (k v : string) :
  (size (<[k := v]> m) <= S (size m))%nat.
Proof.
  destruct (m !! k) as [x|] eqn:Hk.
  - rewrite map_size_insert_Some by eauto. lia.
  - rewrite map_size_insert_None by exact Hk. lia.
Qed.

(** The map grows by at most one entry for each accepted POST to the
    shorten operation, and not at all otherwise. *)
Theorem map_size_bound (st : Globals) (calls : list Call) :
  (size (urlMap (run Parse st calls))
   <= size (urlMap st) + length (omap submission calls))%nat.
Proof.
  revert st. induction calls as [|c calls IH]; intros st.
  - cbn. lia.
  - cbn [run foldl]. etransitivity; [apply IH|]. csimpl.
    destruct (serve_step st c) as [[Hnone Hst]|(url & Hsome & Hst)];
      rewrite Hst; [rewrite Hnone|rewrite Hsome].
    + lia.
    + cbn [urlMap length]. pose proof (size_insert_le (urlMap st)
        (fst (generateShortCode (rand st))) url). lia.
Qed.

End RunProperties.

(** ** The logging wrapper *)

(** What one wrapped call does, with the logger set: the handler runs once
    on the globals, [started] is logged before it, and [finished] after it
    unless it panics. *)
Lemma loggingMiddleware_set (next : Globals -> Request -> Globals * Outcome)
    (sv : Server) (r : Request) (calls : list LogCall) :
  logger sv = Some calls ->
  exists (rest : list LogCall) (clk : Clock),
    loggingMiddleware next sv r
    = (mkServer (fst (next (globals sv) r)) (Some (calls ++ started r :: rest)) clk,
       snd (next (globals sv) r))
    /\ rest = match snd (next (globals sv) r) with
              | Reply _ =>
                  [finished r (instants (clock sv) (S (readings (clock sv)))
                               - instants (clock sv) (readings (clock sv)))]
              | Panic => []
              end.
Proof.
  intros Hlog. unfold loggingMiddleware. cbn [time_Now]. rewrite Hlog.
  destruct (next (globals sv) r) as [st [w|]]; cbn [fst snd time_Since time_Now instants readings].
  - eexists _, _. split; [|reflexivity]. rewrite <- app_assoc. reflexivity.
  - eexists _, _. split; reflexivity.
Qed.

(** The wrapper has no effect on the request it wraps: with the logger
    set, the wrapped handler returns the outcome of the handler and leaves
    the globals the handler leaves. *)
Theorem loggingMiddleware_transparent (next : Globals -> Request -> Globals * Outcome)
    (sv : Server) (r : Request) (calls : list LogCall) :
  logger sv = Some calls ->
  snd (loggingMiddleware next sv r) = snd (next (globals sv) r)
  /\ globals (fst (loggingMiddleware next sv r)) = fst (next (globals sv) r).
Proof.
  intros Hlog.
  destruct (loggingMiddleware_set next sv r calls Hlog) as (rest & clk & -> & _).
  split; reflexivity.
Qed.

(** The wrapper logs the start of every request, with its method and its
    path, before the handler runs, and its end, with the time between two
    readings of the clock, after the handler returns.  When the handler
    panics the end is not logged: the second [Info] is not deferred. *)
Theorem loggingMiddleware_entries (next : Globals -> Request -> Globals * Outcome)
    (sv : Server) (r : Request) (calls : list LogCall) :
  logger sv = Some calls ->
  logger (fst (loggingMiddleware next sv r))
  = Some (calls ++ started r
            :: match snd (next (globals sv) r) with
               | Reply _ =>
                   [finished r (instants (clock sv) (S (readings (clock sv)))
                                - instants (clock sv) (readings (clock sv)))]
               | Panic => []
               end).
Proof.
  intros Hlog.
  destruct (loggingMiddleware_set next sv r calls Hlog) as (rest & clk & -> & ->).
  reflexivity.
Qed.

(** With [logger] still the nil pointer it is declared as, the wrapper
    panics on its first [Info], before the handler runs: the globals stay
    as they are. *)
Theorem loggingMiddleware_nil_logger (next : Globals -> Request -> Globals * Outcome)
    (sv : Server) (r : Request) :
  logger sv = None ->
  snd (loggingMiddleware next sv r) = Panic
  /\ globals (fst (loggingMiddleware next sv r)) = globals sv
  /\ logger (fst (loggingMiddleware next sv r)) = None.
Proof.
  intros Hlog. unfold loggingMiddleware. cbn [time_Now]. rewrite Hlog.
  repeat split.
Qed.

Section RegisteredProperties.

Variable Parse : string -> option URL.

Lemma serve_logged_set (sv : Server) (c : Call) (calls : list LogCall) :
  logger sv = Some calls ->
  exists (rest : list LogCall) (clk : Clock),
    serve_logged Parse sv c
    = (mkServer (fst (serve Parse (globals sv) c))
         (Some (calls ++ started (request_of c) :: rest)) clk,
       snd (serve Parse (globals sv) c))
    /\ List.filter is_started rest = [].
Proof.
  intros Hlog. destruct c as [r|r]; cbn [serve_logged serve request_of].
  - destruct (loggingMiddleware_set shortenHandler sv r calls Hlog)
      as (rest & clk & Heq & Hrest).
    exists rest, clk. split; [exact Heq|]. rewrite Hrest.
    destruct (snd (shortenHandler (globals sv) r)); reflexivity.
  - destruct (loggingMiddleware_set (redirectHandler Parse) sv r calls Hlog)
      as (rest & clk & Heq & Hrest).
    exists rest, clk. split; [exact Heq|]. rewrite Hrest.
    destruct (snd (redirectHandler Parse (globals sv) r)); reflexivity.
Qed.

(** Served through the wrappers that [main] registers, a sequence of
    requests leaves the globals that the bare handlers leave, so what holds
    of the map for the handlers holds for the service; and the starts
    logged on the way are those of the requests, in their order. *)
Theorem run_logged_globals (calls : list Call) :
  forall (sv : Server) (log : list LogCall),
    logger sv = Some log ->
    globals (run_logged Parse sv calls) = run Parse (globals sv) calls
    /\ exists added : list LogCall,
         logger (run_logged Parse sv calls) = Some (log ++ added)
         /\ List.filter is_started added = map (fun c => started (request_of c)) calls.
Proof.
  induction calls as [|c calls IH]; intros sv log Hlog.
  - split; [reflexivity|]. exists []. rewrite app_nil_r. split; [exact Hlog|reflexivity].
  - cbn [run_logged run foldl].
    destruct (serve_logged_set sv c log Hlog) as (rest & clk & Heq & Hrest).
    rewrite Heq. cbn [fst].
    destruct (IH (mkServer (fst (serve Parse (globals sv) c))
                    (Some (log ++ started (request_of c) :: rest)) clk)
                 (log ++ started (request_of c) :: rest) eq_refl)
      as (Hglobals & added & Hadded & Hfilter).
    split; [exact Hglobals|].
    exists (started (request_of c) :: rest ++ added). split.
    + unfold run_logged in Hadded. rewrite Hadded. f_equal.
      rewrite <- app_assoc. reflexivity.
    + cbn [map List.filter is_started started msg]. cbn [String.eqb Ascii.eqb Bool.eqb].
      rewrite List.filter_app, Hrest, Hfilter. reflexivity.
Qed.

End RegisteredProperties.

(** ** The logging wrapper on a run *)

Lemma loggingMiddleware_transparent_witness :
  let r := post_original "https://github.com" in
  logger serving = Some []
  /\ status (snd (loggingMiddleware shortenHandler serving r)) = Some 200
  /\ urlMap (globals (fst (loggingMiddleware shortenHandler serving r))) !! "dkryFM"
     = Some "https://github.com".
Proof.
  intros r. split; [reflexivity|].
  destruct (loggingMiddleware_transparent shortenHandler serving r [] eq_refl)
    as [Hout Hglobals].
  rewrite Hout, Hglobals. split; reflexivity.
Defined.

Lemma loggingMiddleware_entries_witness :
  let miss := mkRequest MethodGet "/nope" NoJSON in
  let empty := mkRequest MethodGet EmptyString NoJSON in
  logger (fst (loggingMiddleware (redirectHandler url_Parse) serving miss))
  = Some [started miss; finished miss 1000]
  /\ logger (fst (loggingMiddleware (redirectHandler url_Parse) serving empty))
     = Some [started empty].
Proof.
  intros miss empty. split.
  - exact (loggingMiddleware_entries (redirectHandler url_Parse) serving miss [] eq_refl).
  - exact (loggingMiddleware_entries (redirectHandler url_Parse) serving empty [] eq_refl).
Defined.

Lemma loggingMiddleware_nil_logger_witness :
  let sv := mkServer start None example_clock in
  let r := post_original "https://github.com" in
  snd (loggingMiddleware shortenHandler sv r) = Panic
  /\ globals (fst (loggingMiddleware shortenHandler sv r)) = start.
Proof.
  intros sv r.
  destruct (loggingMiddleware_nil_logger shortenHandler sv r eq_refl) as (Hout & Hglobals & _).
  split; assumption.
Defined.

Lemma run_logged_globals_witness :
  let post := post_original "https://github.com" in
  let get := mkRequest MethodGet "/dkryFM" NoJSON in
  let calls := [Shorten post; Redirect get] in
  urlMap (globals (run_logged url_Parse serving calls)) !! "dkryFM"
  = Some "https://github.com"
  /\ exists added : list LogCall,
       logger (run_logged url_Parse serving calls) = Some added
       /\ List.filter is_started added = [started post; started get].
Proof.
  intros post get calls.
  destruct (run_logged_globals url_Parse calls serving [] eq_refl)
    as (Hglobals & added & Hadded & Hfilter).
  split.
  - rewrite Hglobals. reflexivity.
  - exists added. split; assumption.
Defined.

(** ** The random source across a run *)

(** Only accepted POSTs to the shorten operation draw from the random
    source, six draws each: a refused request, and every request to the
    redirect operation, leaves the source where it was. *)
Theorem run_draws_six_per_code (Parse : string -> option URL)
    (st : Globals) (calls : list Call) :
  rand (run Parse st calls)
  = mkRand (draws (rand st))
      (taken (rand st) + 6 * length (omap submission calls)).
Proof.
  revert st. induction calls as [|c calls IH]; intros st.
  - cbn. rewrite Nat.add_0_r. destruct (rand st); reflexivity.
  - change (run Parse st (c :: calls)) with (run Parse (fst (serve Parse st c)) calls).
    rewrite IH. csimpl.
    destruct (serve_step Parse st c) as [[Hnone Hst]|(url & Hsome & Hst)];
      rewrite Hst; [rewrite Hnone; reflexivity|rewrite Hsome].
    cbn [rand]. rewrite generateShortCode_eq. cbn [snd draws taken length].
    f_equal. lia.
Qed.

(** ** Stored URLs and methods on a run *)

Lemma redirect_not_found_iff_absent_witness :
  urlMap (stored_abc123 "https://example.com") !! "abc123" = Some "https://example.com"
  /\ sent_unchanged url_Parse "https://example.com" = true
  /\ status (visit MethodGet (stored_abc123 "https://example.com") "/abc123") = Some 307
  /\ header (visit MethodGet (stored_abc123 "https://example.com") "/abc123") "Location"
     = Some "https://example.com"
  /\ status (visit MethodGet (stored_abc123 "https://example.com") "/nonexistent")
     = Some 404.
Proof.
  destruct (redirect_not_found_iff_absent url_Parse
              (stored_abc123 "https://example.com") "abc123" NoJSON) as (_ & Hhit & _).
  destruct (Hhit "https://example.com" eq_refl) as (_ & Hstatus & _ & Hsame).
  destruct (redirect_not_found_iff_absent url_Parse
              (stored_abc123 "https://example.com") "nonexistent" NoJSON) as (_ & _ & Hmiss).
  split; [reflexivity|]. split; [reflexivity|]. split; [exact Hstatus|].
  split; [exact (Hsame eq_refl)|]. apply Hmiss. reflexivity.
Defined.

(** C4 as stated fails: the key [abc123] is in the map with the URL
    [example.com], and the 307 for [GET /abc123] does not lead to the
    stored URL: its Location is [/example.com]. *)
Lemma redirect_stored_relative_url :
  urlMap (stored_abc123 "example.com") !! "abc123" = Some "example.com"
  /\ status (visit MethodGet (stored_abc123 "example.com") "/abc123") = Some 307
  /\ header (visit MethodGet (stored_abc123 "example.com") "/abc123") "Location"
     = Some "/example.com".
Proof. vm_compute. repeat split. Qed.

(** A HEAD of a stored code: the Content-Type of the GET, and no body. *)
Example redirect_head_without_body :
  let st := shortened "https://github.com" in
  status (visit MethodHead st "/dkryFM") = Some 307
  /\ header (visit MethodHead st "/dkryFM") "Location" = Some "https://github.com"
  /\ header (visit MethodHead st "/dkryFM") "Content-Type" = Some "text/html; charset=utf-8"
  /\ body (visit MethodHead st "/dkryFM") = [].
Proof. vm_compute. repeat split. Qed.

(** A host with two colons outside brackets is refused. *)
Example url_Parse_second_colon :
  url_Parse "http://::1/" = None
  /\ url_Parse "http://[::1]:8080/" = Some (mkURL "http" "[::1]:8080")
  /\ url_Parse "http://localhost:8080/" = Some (mkURL "http" "localhost:8080").
Proof. vm_compute. repeat split. Qed.
